(** * gennotes-agent: the /generate gateway and the image-search tool

    A shallow embedding of [main.py]: the Python values the handler and the
    tool manipulate, exceptions with [try]/[except], a state-and-error monad
    for the effects (console output, the process-wide agent, the outbound
    HTTP call), then the two functions themselves and their properties. *)

From Stdlib Require Import ZArith String.
From Stdlib Require Import Floats.SpecFloat.
From stdpp Require Import base option strings list gmap pretty.

Set Warnings "-register-all".

(** ** Python values *)

(** The values that flow through [main.py]: what [json.loads] produces for a
    request or API body, and what message attributes hold.  A [dict] with
    string keys is a finite map; a float is an IEEE value, of which only
    "is it zero" matters here (truthiness). *)
Inductive pyval : Type :=
  | PNone
  | PBool (b : bool)
  | PInt (z : Z)
  | PFloat (f : spec_float)
  | PStr (s : string)
  | PList (l : list pyval)
  | PDict (d : gmap string pyval).

(** [bool(v)], the test behind [if not content]. *)
Definition truthy (v : pyval) : bool :=
  match v with
  | PNone => false
  | PBool b => b
  | PInt z => negb (z =? 0)%Z
  | PFloat (S754_zero _) => false
  | PFloat _ => true
  | PStr s => negb (String.eqb s EmptyString)
  | PList l => match l with [] => false | _ => true end
  | PDict d => negb (bool_decide (d = ∅))
  end.

(** [type(v).__name__], as it appears in the interpreter's error messages. *)
Definition type_name (v : pyval) : string :=
  match v with
  | PNone => "NoneType"
  | PBool _ => "bool"
  | PInt _ => "int"
  | PFloat _ => "float"
  | PStr _ => "str"
  | PList _ => "list"
  | PDict _ => "dict"
  end.

(** ** Exceptions *)

(** An exception object: its place in the class hierarchy and the text
    [str(e)] yields.  [HTTPExc] is [fastapi.HTTPException] (a subclass of
    [Exception]); [Exc] is [Exception] or any other subclass of it, named;
    [BaseExc] is a [BaseException] outside [Exception] ([KeyboardInterrupt],
    [asyncio.CancelledError], ...). *)
Inductive exn : Type :=
  | HTTPExc (status_code : Z) (detail : pyval) (str : string)
  | Exc (cls : string) (str : string)
  | BaseExc (cls : string) (str : string).

Definition exn_str (e : exn) : string :=
  match e with
  | HTTPExc _ _ s => s
  | Exc _ s => s
  | BaseExc _ s => s
  end.

(** [isinstance(e, HTTPException)] and [isinstance(e, Exception)]. *)
Definition isinstance_HTTPException (e : exn) : bool :=
  match e with HTTPExc _ _ _ => true | _ => false end.

Definition isinstance_Exception (e : exn) : bool :=
  match e with HTTPExc _ _ _ | Exc _ _ => true | BaseExc _ _ => false end.

(** [HTTPException(status_code=..., detail="...")] as the handler builds it;
    the text follows Starlette's [__str__]. *)
Definition HTTPException (status_code : Z) (detail : string) : exn :=
  HTTPExc status_code (PStr detail) (pretty status_code +:+ ": " +:+ detail).

(** [Exception("...")]. *)
Definition Exception (msg : string) : exn := Exc "Exception" msg.

(** ** Outcomes and the effect monad *)

Inductive result (A : Type) : Type :=
  | Returns (a : A)
  | Raises (e : exn).
Arguments Returns {A} a.
Arguments Raises {A} e.

Definition returned {A} (r : result A) : Prop := ∃ a, r = Returns a.
Definition raised {A} (r : result A) : Prop := ∃ e, r = Raises e.

#[global] Instance result_ret : MRet result := λ A a, Returns a.
#[global] Instance result_bind : MBind result := λ A B f r,
  match r with
  | Returns a => f a
  | Raises e => Raises e
  end.

(** A computation over a store [St] that returns or raises. *)
Definition M (St A : Type) : Type := St → result A * St.

#[global] Instance M_ret St : MRet (M St) := λ A a s, (Returns a, s).
#[global] Instance M_bind St : MBind (M St) := λ A B f m s,
  match m s with
  | (Returns a, s') => f a s'
  | (Raises e, s') => (Raises e, s')
  end.

Definition raise {St A} (e : exn) : M St A := λ s, (Raises e, s).
Definition lift {St A} (r : result A) : M St A := λ s, (r, s).

(** [try: body / except C1 as e: h1 / except C2 as e: h2 ...]: the first
    clause whose class test accepts the exception handles it; an exception
    no clause accepts propagates. *)
Definition except_clause (St A : Type) : Type := (exn → bool) * (exn → M St A).

Fixpoint dispatch {St A} (e : exn) (clauses : list (except_clause St A)) : M St A :=
  match clauses with
  | [] => raise e
  | (accepts, handler) :: rest =>
      if accepts e then handler e else dispatch e rest
  end.

Definition try_except {St A} (body : M St A) (clauses : list (except_clause St A)) : M St A :=
  λ s, match body s with
       | (Returns a, s') => (Returns a, s')
       | (Raises e, s') => dispatch e clauses s'
       end.

(** ** Built-in operations on values *)

(** [v.get(key)] and [v.get(key, default)]: only a [dict] has the method. *)
Definition dict_get (v : pyval) (key : string) (dflt : pyval) : result pyval :=
  match v with
  | PDict d => Returns (default dflt (d !! key))
  | _ => Raises (Exc "AttributeError"
                   ("'" +:+ type_name v +:+ "' object has no attribute 'get'"))
  end.

(** [v[key]] with a string key. *)
Definition subscript (v : pyval) (key : string) : result pyval :=
  match v with
  | PDict d =>
      match d !! key with
      | Some x => Returns x
      | None => Raises (Exc "KeyError" ("'" +:+ key +:+ "'"))
      end
  | PStr _ => Raises (Exc "TypeError" "string indices must be integers, not 'str'")
  | PList _ => Raises (Exc "TypeError" "list indices must be integers or slices, not str")
  | _ => Raises (Exc "TypeError" ("'" +:+ type_name v +:+ "' object is not subscriptable"))
  end.

Fixpoint chars (s : string) : list pyval :=
  match s with
  | EmptyString => []
  | String c s' => PStr (String c EmptyString) :: chars s'
  end.

(** The elements a [for] loop draws from [v]: the items of a list, the
    characters of a string, the keys of a dict; anything else is not
    iterable.  (Python walks a dict's keys in insertion order, which a finite
    map does not record; nothing below depends on that order.) *)
Definition iterate (v : pyval) : result (list pyval) :=
  match v with
  | PList l => Returns l
  | PStr s => Returns (chars s)
  | PDict d => Returns (PStr <$> (map_to_list d).*1)
  | _ => Raises (Exc "TypeError" ("'" +:+ type_name v +:+ "' object is not iterable"))
  end.

(** The list comprehension [[elt(x) for x in xs if cond(x)]]: elements are
    visited in order, the first exception raised by [elt] aborts the whole
    comprehension. *)
Fixpoint comprehension {A B} (elt : A → result B) (cond : A → bool)
    (xs : list A) : result (list B) :=
  match xs with
  | [] => Returns []
  | x :: rest =>
      if cond x then
        y ← elt x; ys ← comprehension elt cond rest; mret (y :: ys)
      else comprehension elt cond rest
  end.

(** ** The image-search tool ([GoogleImageSearchTools]) *)

(** What [requests.get] hands back: the status, the raw body, and the
    outcome [response.json()] would have on that body. *)
Record Response := {
  status_code : Z;
  text : string;
  json : result pyval;
}.

(** The outside world of one call: what a GET to a URL with given
    parameters produces (a response, or a transport error). *)
Class HttpClient := http_get : string → gmap string pyval → result Response.

(** The calls made on the outside, in order. *)
Inductive event : Type :=
  | EvGet (url : string) (params : gmap string pyval)
  | EvJson (r : Response).

Definition is_json_event (ev : event) : bool :=
  match ev with EvJson _ => true | EvGet _ _ => false end.

Record GoogleImageSearchTools := {
  api_key : pyval;
  cse_id : pyval;
}.

Section ImageSearch.
Context `{!HttpClient}.

(** [requests.get(url, params=params)] and [response.json()], recorded. *)
Definition requests_get (url : string) (params : gmap string pyval)
    : M (list event) Response :=
  λ tr, (http_get url params, tr ++ [EvGet url params]).

Definition response_json (r : Response) : M (list event) pyval :=
  λ tr, (json r, tr ++ [EvJson r]).

Definition base_url : string := "https://www.googleapis.com/customsearch/v1".

Definition search_params (self : GoogleImageSearchTools) (query : string)
    : gmap string pyval :=
  {[ "q" := PStr query;
     "key" := api_key self;
     "cx" := cse_id self;
     "searchType" := PStr "image";
     "num" := PInt 3 ]}.

(** [item['link'] for item in results.get('items', [])] *)
Definition item_links (results : pyval) : result (list pyval) :=
  items ← dict_get results "items" (PList []) ≫= iterate;
  comprehension (λ item, subscript item "link") (λ _, true) items.

Definition search_images (self : GoogleImageSearchTools) (query : string)
    : M (list event) (list pyval) :=
  response ← requests_get base_url (search_params self query);
  if bool_decide (status_code response ≠ 200%Z) then
    raise (Exception ("Google API Error: " +:+ pretty (status_code response)
                        +:+ " - " +:+ text response))
  else
    results ← response_json response;
    image_urls ← lift (item_links results);
    mret image_urls.

End ImageSearch.

(** ** The gateway ([POST /generate]) *)

(** An object seen through its attributes: a transcript message. *)
Abbreviation Message := (gmap string pyval).

Definition hasattr (o : Message) (name : string) : bool :=
  bool_decide (is_Some (o !! name)).

Definition getattr (o : Message) (name : string) : result pyval :=
  match o !! name with
  | Some v => Returns v
  | None => Raises (Exc "AttributeError"
                      ("'Message' object has no attribute '" +:+ name +:+ "'"))
  end.

(** What [agent.run] returns; the handler reads its [content]. *)
Record RunResponse := { response_content : pyval }.

(** The module-level [agent] is one object for the whole process.  Its
    class lives in a third-party framework, so it is an interface here: a
    state, [run] acting on that state, and the messages its memory holds. *)
Class Agent (AgentSt : Type) := {
  agent_run : pyval → M AgentSt RunResponse;
  agent_memory_messages : AgentSt → list Message;
}.

(** What outlives a request: the agent and the console (the lines the
    handler itself prints; the agent's own debug output is not tracked). *)
Record World (AgentSt : Type) := {
  agent : AgentSt;
  stdout : list string;
}.
Arguments agent {AgentSt} w.
Arguments stdout {AgentSt} w.
Arguments Build_World {AgentSt} agent stdout.

(** An inbound request, as far as the handler looks at it: the outcome of
    [await request.json()]. *)
Record Request := { request_json : result pyval }.

(** [{"role": msg.role, "content": msg.content}] *)
Definition serializable_message (msg : Message) : result pyval :=
  role ← getattr msg "role";
  content ← getattr msg "content";
  mret (PDict {[ "role" := role; "content" := content ]}).

(** [hasattr(msg, 'role') and hasattr(msg, 'content')] *)
Definition has_role_and_content (msg : Message) : bool :=
  hasattr msg "role" && hasattr msg "content".

Section Gateway.
Context {AgentSt : Type} `{!Agent AgentSt}.

Definition print (line : string) : M (World AgentSt) unit :=
  λ w, (Returns (), {| agent := agent w; stdout := stdout w ++ [line] |}).

(** [agent.run(content)] on the shared agent. *)
Definition run (content : pyval) : M (World AgentSt) RunResponse :=
  λ w, let '(r, a) := agent_run content (agent w) in
       (r, {| agent := a; stdout := stdout w |}).

(** [agent.memory.messages] of the shared agent. *)
Definition memory_messages : M (World AgentSt) (list Message) :=
  λ w, (Returns (agent_memory_messages (agent w)), w).

(** The inner [try] block with its [except Exception] clause: run the
    agent on [content], collect the messages, build the return value. *)
Definition agent_block (content : pyval) : M (World AgentSt) pyval :=
  try_except (
    response ← run content;
    print EmptyString;;
    messages ← memory_messages;
    serializable_messages ←
      lift (comprehension serializable_message has_role_and_content messages);
    mret (PDict {[ "html_content" := response_content response;
                   "messages" := PList serializable_messages ]})
  ) [ (isinstance_Exception, λ e,
        print ("Error during agent execution: " +:+ exn_str e);;
        raise (HTTPException 500
                 ("An error occurred during generation: " +:+ exn_str e))) ].

(** The body of the outer [try]: read the request, check [content], then
    the inner block. *)
Definition request_block (request : Request) : M (World AgentSt) pyval :=
  data ← lift (request_json request);
  content ← lift (dict_get data "content" PNone);
  if negb (truthy content) then
    raise (HTTPException 400 "Missing 'content' in request body")
  else
    agent_block content.

Definition generate_notes (request : Request) : M (World AgentSt) pyval :=
  try_except (request_block request)
    [ (isinstance_HTTPException, λ http_exc, raise http_exc);
      (isinstance_Exception, λ e,
        print ("Error processing request: " +:+ exn_str e);;
        raise (HTTPException 500 ("Failed to process request: " +:+ exn_str e))) ].

(** *** The route: [@app.post("/generate", response_model=HtmlResponse)] *)

Record HttpResponse := {
  status : Z;
  body : pyval;
}.

(** [HtmlResponse]: [html_content: str], [messages: List[Any]].  The
    framework checks the handler's return value against the model and
    keeps the model's fields.  The result is the validated value, before it
    is written out as JSON text: how that encoding writes the values inside
    the messages (a float JSON cannot express, say) is not modelled, so the
    properties below speak of the keys, of the [html_content] string and of
    the number of messages only. *)
Definition HtmlResponse (v : pyval) : option pyval :=
  match v with
  | PDict d =>
      match d !! "html_content", d !! "messages" with
      | Some (PStr html_content), Some (PList messages) =>
          Some (PDict {[ "html_content" := PStr html_content;
                         "messages" := PList messages ]})
      | _, _ => None
      end
  | _ => None
  end.

Definition internal_server_error : HttpResponse :=
  {| status := 500; body := PStr "Internal Server Error" |}.

(** What the client gets: a validated return value is sent with status 200
    (its [body] here is that value, see [HtmlResponse]),
    an [HTTPException] with its own status and [{"detail": ...}], any other
    [Exception] (a return value that fails the model included) as a bare 500;
    an exception outside [Exception] ends the request without a response. *)
Definition post_generate (request : Request)
    : World AgentSt → option HttpResponse * World AgentSt :=
  λ w, match generate_notes request w with
       | (Returns v, w') =>
           match HtmlResponse v with
           | Some b => (Some {| status := 200; body := b |}, w')
           | None => (Some internal_server_error, w')
           end
       | (Raises (HTTPExc status_code detail _), w') =>
           (Some {| status := status_code; body := PDict {[ "detail" := detail ]} |}, w')
       | (Raises (Exc _ _), w') => (Some internal_server_error, w')
       | (Raises (BaseExc _ _), w') => (None, w')
       end.

(** The process serving a sequence of requests one after the other. *)
Fixpoint serve (history : list Request) (w : World AgentSt) : World AgentSt :=
  match history with
  | [] => w
  | request :: rest => serve rest (generate_notes request w).2
  end.

End Gateway.

(** ** Some agents and requests *)

Definition message (role : string) (content : pyval) : Message :=
  {[ "role" := PStr role; "content" := content ]}.

Definition notes_for (content : pyval) : pyval :=
  match content with
  | PStr topic => PStr ("<h1>" +:+ topic +:+ "</h1>")
  | _ => PStr "<h1></h1>"
  end.

(** An agent whose memory keeps the whole transcript of the process: each
    run appends the user's message and the answer to what is there. *)
Definition transcript_agent : Agent (list Message) := {|
  agent_run content memory :=
    (Returns {| response_content := notes_for content |},
     memory ++ [message "user" content; message "assistant" (notes_for content)]);
  agent_memory_messages memory := memory;
|}.

(** An agent that starts every run from an empty memory. *)
Definition fresh_agent : Agent (list Message) := {|
  agent_run content _ :=
    (Returns {| response_content := notes_for content |},
     [message "user" content; message "assistant" (notes_for content)]);
  agent_memory_messages memory := memory;
|}.

(** An agent whose run always fails with [e]. *)
Definition failing_agent (e : exn) : Agent unit := {|
  agent_run _ _ := (Raises e, ());
  agent_memory_messages _ := [];
|}.

(** An agent that answers and remembers nothing. *)
Definition memoryless_agent : Agent unit := {|
  agent_run content _ := (Returns {| response_content := notes_for content |}, ());
  agent_memory_messages _ := [];
|}.

(** An agent whose answer carries no text. *)
Definition silent_agent : Agent unit := {|
  agent_run _ _ := (Returns {| response_content := PNone |}, ());
  agent_memory_messages _ := [];
|}.

Definition json_request (data : pyval) : Request :=
  {| request_json := Returns data |}.

Definition content_request (content : pyval) : Request :=
  json_request (PDict {[ "content" := content ]}).

Definition start {AgentSt} (a : AgentSt) : World AgentSt :=
  {| agent := a; stdout := [] |}.

(** An API on which every query is answered with the same response. *)
Definition fixed_api (response : Response) : HttpClient := λ _ _, Returns response.

Definition ok_response (results : pyval) : Response :=
  {| status_code := 200; text := "{...}"; json := Returns results |}.

Definition link_item (url : string) : pyval :=
  PDict {[ "link" := PStr url; "title" := PStr "image" ]}.

Definition tools : GoogleImageSearchTools :=
  {| api_key := PStr "key"; cse_id := PStr "cx" |}.

(** [item['link']] succeeds on [item]: a dict that has the key. *)
Definition has_link (item : pyval) : bool :=
  match item with
  | PDict d => bool_decide (is_Some (d !! "link"))
  | _ => false
  end.

(** [link] is the ['link'] field of [item]. *)
Definition link_of (item link : pyval) : Prop :=
  ∃ d, item = PDict d ∧ d !! "link" = Some link.

Definition not_found : exn := HTTPExc 404 (PStr "Not Found") "404: Not Found".

Definition topic : pyval := PStr "graphs".

Definition topic_request : Request := content_request topic.

(** A message object that exposes a role but no content. *)
Definition bare_message : Message := {[ "role" := PStr "tool" ]}.

Definition overloaded : exn := Exc "RuntimeError" "model overloaded".

Definition too_large : exn :=
  HTTPExc 413 (PStr "Request Entity Too Large") "413: Request Entity Too Large".

Definition bad_json : exn :=
  Exc "JSONDecodeError" "Expecting value: line 1 column 1 (char 0)".

Definition unreadable_request (e : exn) : Request := {| request_json := Raises e |}.

(** The messages of a handler outcome, when it has any. *)
Definition returned_messages (r : result pyval) : result (list pyval) :=
  v ← r; messages ← subscript v "messages"; iterate messages.

Definition two_items : pyval :=
  PDict {[ "items" := PList [link_item "https://a.example/1.png";
                             link_item "https://b.example/2.png"] ]}.

Definition item_without_link : pyval := PDict {[ "title" := PStr "image" ]}.

Definition broken_items : pyval :=
  PDict {[ "items" := PList [link_item "https://a.example/1.png";
                             item_without_link;
                             link_item "https://b.example/2.png"] ]}.

Definition forbidden : Response :=
  {| status_code := 403; text := "quota exceeded"; json := Raises bad_json |}.

(** An API that cannot be reached: every GET fails with [e]. *)
Definition failing_api (e : exn) : HttpClient := λ _ _, Raises e.

Definition connection_error : exn := Exc "ConnectionError" "Max retries exceeded".

Definition keyboard_interrupt : exn := BaseExc "KeyboardInterrupt" EmptyString.

Definition unparsable : Response :=
  {| status_code := 200; text := "<html>"; json := Raises bad_json |}.

Definition null_items : pyval := PDict {[ "items" := PNone ]}.

(** The values a [for] loop can draw from. *)
Definition iterable (v : pyval) : bool :=
  match v with
  | PList _ | PStr _ | PDict _ => true
  | _ => false
  end.

(** A run of the agent never drops what its memory held: the messages
    after a run extend the messages before it. *)
Definition memory_grows {AgentSt} `{!Agent AgentSt} : Prop :=
  ∀ content a,
    agent_memory_messages a `prefix_of` agent_memory_messages (agent_run content a).2.

(** *** Vocabulary of the properties *)

(** The dict has no truthy value under [key]: the key is absent, or what it
    holds is falsy ([None], the empty string, ...). *)
Definition lacks_truthy (d : gmap string pyval) (key : string) : Prop :=
  ∀ v, d !! key = Some v → truthy v = false.

(** The [{role, content}] projections of the messages that expose both
    attributes, in the messages' order; a message lacking either is left
    out. *)
Inductive Projection : list Message → list pyval → Prop :=
  | Projection_nil : Projection [] []
  | Projection_keep msg role content msgs out :
      msg !! "role" = Some role →
      msg !! "content" = Some content →
      Projection msgs out →
      Projection (msg :: msgs) (PDict {[ "role" := role; "content" := content ]} :: out)
  | Projection_drop msg msgs out :
      msg !! "role" = None ∨ msg !! "content" = None →
      Projection msgs out →
      Projection (msg :: msgs) out.

#[global] Instance pyval_inhabited : Inhabited pyval := populate PNone.

Definition project (msg : Message) : pyval :=
  PDict {[ "role" := msg !!! "role"; "content" := msg !!! "content" ]}.

(** The agent's answer and the memory it leaves do not depend on the state
    it was in before the run. *)
Definition history_independent {AgentSt} `{!Agent AgentSt} : Prop :=
  ∀ content a1 a2,
    (agent_run content a1).1 = (agent_run content a2).1
    ∧ agent_memory_messages (agent_run content a1).2
      = agent_memory_messages (agent_run content a2).2.

(** * Properties *)

(** ** Comprehensions *)

Lemma comprehension_all_Forall2 {A B} (elt : A → result B) (P : A → B → Prop) xs ys :
  (∀ x y, P x y → elt x = Returns y) →
  Forall2 P xs ys →
  comprehension elt (λ _, true) xs = Returns ys.
Proof.
  intros Helt Hall. induction Hall as [|x y xs ys Hxy _ IH]; [done|].
  cbn. rewrite (Helt _ _ Hxy). cbn. by rewrite IH.
Qed.

Lemma comprehension_all_returns {A B} (elt : A → result B) xs ys :
  comprehension elt (λ _, true) xs = Returns ys →
  Forall2 (λ x y, elt x = Returns y) xs ys.
Proof.
  revert ys. induction xs as [|x xs IH]; intros ys; cbn.
  - intros [= <-]. constructor.
  - destruct (elt x) as [y|e] eqn:Hx; cbn; [|done].
    destruct (comprehension elt _ xs) as [ys'|e] eqn:Hxs; cbn; [|done].
    intros [= <-]. constructor; [done|]. by apply IH.
Qed.

Lemma comprehension_all_raises {A B} (elt : A → result B) xs :
  Exists (λ x, raised (elt x)) xs →
  raised (comprehension elt (λ _, true) xs).
Proof.
  induction 1 as [x xs [e He]|x xs _ [e IH]]; cbn.
  - rewrite He. by exists e.
  - destruct (elt x) as [y|e']; cbn; [|by eexists].
    rewrite IH. by exists e.
Qed.

Lemma subscript_link_of item link :
  subscript item "link" = Returns link ↔ link_of item link.
Proof.
  split.
  - destruct item; try done. cbn.
    destruct (d !! "link") as [x|] eqn:Hd; [|done].
    intros [= <-]. by exists d.
  - intros (d & -> & Hd). cbn. by rewrite Hd.
Qed.

Lemma subscript_has_link item :
  returned (subscript item "link") ↔ has_link item = true.
Proof.
  unfold returned. destruct item; cbn; try (split; [intros [? [=]]|done]).
  rewrite bool_decide_eq_true. destruct (d !! "link") as [x|].
  - split; eauto.
  - split; [intros [? [=]]|intros [? [=]]].
Qed.

Lemma subscript_no_link item :
  has_link item = false → raised (subscript item "link").
Proof.
  intros Hno. destruct (subscript item "link") as [x|e] eqn:Hs; [|by exists e].
  assert (has_link item = true) by (apply subscript_has_link; by exists x).
  congruence.
Qed.

(** ** The image-search tool *)

Section ImageSearchProperties.
Context `{!HttpClient}.

Lemma search_images_200 self query tr response :
  http_get base_url (search_params self query) = Returns response →
  status_code response = 200%Z →
  search_images self query tr =
    (json response ≫= item_links,
     tr ++ [EvGet base_url (search_params self query); EvJson response]).
Proof.
  intros Hget Hst. unfold search_images, requests_get, response_json.
  cbv [mbind M_bind]. rewrite Hget, Hst. cbn.
  case_bool_decide; [done|].
  rewrite <-(assoc_L (++)). cbn.
  destruct (json response) as [r|e]; cbn; [|done]. by destruct (item_links r).
Qed.

(** C7: on a 200 response whose JSON body is an object, [search_images]
    returns the ['link'] field of each element of its ['items'] list, in the
    API's order and hence one per item; when the body has no ['items'] it
    returns the empty list.  In both cases it made one GET and parsed the
    body once. *)
Theorem search_images_returns_links self query tr response results :
  http_get base_url (search_params self query) = Returns response →
  status_code response = 200%Z →
  json response = Returns (PDict results) →
  let tr' := tr ++ [EvGet base_url (search_params self query); EvJson response] in
  (results !! "items" = None → search_images self query tr = (Returns [], tr'))
  ∧ (∀ items links,
       results !! "items" = Some (PList items) →
       Forall2 link_of items links →
       search_images self query tr = (Returns links, tr')
       ∧ length links = length items).
Proof.
  intros Hget Hst Hjson tr'. rewrite (search_images_200 _ _ _ _ Hget Hst), Hjson.
  split.
  - intros Hnone. unfold item_links. cbn. by rewrite Hnone.
  - intros items links Hitems Hlinks. split; [|symmetry; by eapply Forall2_length].
    unfold item_links. cbn. rewrite Hitems. cbn.
    rewrite (comprehension_all_Forall2 _ link_of items links); [done| |done].
    intros x y. apply subscript_link_of.
Qed.

(** C8: on a response whose status is not 200, [search_images] raises an
    [Exception] whose message is "Google API Error: <status> - <body>", and
    the only call it has made is the GET: the body was never parsed. *)
Theorem search_images_non_200_raises self query tr response :
  http_get base_url (search_params self query) = Returns response →
  status_code response ≠ 200%Z →
  search_images self query tr =
    (Raises (Exception ("Google API Error: " +:+ pretty (status_code response)
                          +:+ " - " +:+ text response)),
     tr ++ [EvGet base_url (search_params self query)])
  ∧ ∀ ev, ev ∈ (search_images self query tr).2 → is_json_event ev = true → ev ∈ tr.
Proof.
  intros Hget Hst.
  assert (search_images self query tr =
    (Raises (Exception ("Google API Error: " +:+ pretty (status_code response)
                          +:+ " - " +:+ text response)),
     tr ++ [EvGet base_url (search_params self query)])) as Heq.
  { unfold search_images, requests_get. cbv [mbind M_bind]. rewrite Hget.
    by rewrite bool_decide_eq_true_2. }
  split; [done|]. rewrite Heq. cbn. intros ev Hev Hjs.
  apply elem_of_app in Hev as [Hev|Hev]; [done|].
  apply list_elem_of_singleton in Hev as ->. done.
Qed.

(** C10: on a 200 response whose JSON body carries an ['items'] list,
    [search_images] returns exactly when every item is a dict with a
    ['link'] key; as soon as one item lacks it the call raises, so no item
    is skipped and no partial list comes back. *)
Theorem search_images_requires_every_link self query tr response results items :
  http_get base_url (search_params self query) = Returns response →
  status_code response = 200%Z →
  json response = Returns (PDict results) →
  results !! "items" = Some (PList items) →
  (returned (search_images self query tr).1 ↔ Forall (λ item, has_link item = true) items)
  ∧ (Exists (λ item, has_link item = false) items →
     raised (search_images self query tr).1).
Proof.
  intros Hget Hst Hjson Hitems.
  rewrite (search_images_200 _ _ _ _ Hget Hst), Hjson. cbn.
  unfold item_links. cbn. rewrite Hitems. cbn. split; [split|].
  - intros [links Hlinks]. apply comprehension_all_returns in Hlinks.
    clear Hitems. induction Hlinks as [|item link items' links' Hl _ IH]; constructor; [|done].
    apply subscript_has_link. by exists link.
  - intros Hall.
    assert (∃ links, Forall2 link_of items links) as [links Hlinks].
    { clear Hitems. induction Hall as [|item items' Hitem _ [links IH]]; [by exists []|].
      apply subscript_has_link in Hitem as [link Hlink].
      exists (link :: links). constructor; [|done]. by apply subscript_link_of. }
    exists links. apply (comprehension_all_Forall2 _ link_of); [|done].
    intros x y. apply subscript_link_of.
  - intros Hex. apply comprehension_all_raises.
    eapply Exists_impl; [done|]. intros item. apply subscript_no_link.
Qed.

End ImageSearchProperties.

(** ** The gateway *)

Lemma lacks_truthy_absent_null_empty (d : gmap string pyval) key :
  d !! key = None ∨ d !! key = Some PNone ∨ d !! key = Some (PStr EmptyString) →
  lacks_truthy d key.
Proof. intros [H|[H|H]] v Hv; rewrite H in Hv; by simplify_eq. Qed.

Lemma lacks_truthy_default (d : gmap string pyval) key :
  lacks_truthy d key ↔ truthy (default PNone (d !! key)) = false.
Proof.
  unfold lacks_truthy. destruct (d !! key) as [v|]; cbn.
  - split; [by intros H; apply H|by intros H v' [= <-]].
  - split; [done|by intros _ v' [=]].
Qed.

Lemma has_role_and_content_true msg :
  has_role_and_content msg = true →
  ∃ role content, msg !! "role" = Some role ∧ msg !! "content" = Some content.
Proof.
  unfold has_role_and_content, hasattr. rewrite andb_true_iff, !bool_decide_eq_true.
  intros [[role ?] [content ?]]. eauto.
Qed.

Lemma has_role_and_content_false msg :
  has_role_and_content msg = false →
  msg !! "role" = None ∨ msg !! "content" = None.
Proof.
  unfold has_role_and_content, hasattr. rewrite andb_false_iff, !bool_decide_eq_false.
  rewrite <-!eq_None_not_Some. done.
Qed.

Lemma serializable_messages_Projection msgs :
  ∃ out, comprehension serializable_message has_role_and_content msgs = Returns out
         ∧ Projection msgs out
         ∧ out = project <$> filter (λ msg, has_role_and_content msg = true) msgs.
Proof.
  induction msgs as [|msg msgs (out & Hout & Hproj & Hfil)]; [by exists []; repeat constructor|].
  cbn [comprehension]. rewrite filter_cons, Hout.
  destruct (has_role_and_content msg) eqn:Hmsg.
  - destruct (has_role_and_content_true _ Hmsg) as (role & content & Hrole & Hcontent).
    exists (PDict {[ "role" := role; "content" := content ]} :: out).
    unfold serializable_message, getattr. rewrite Hrole, Hcontent.
    split_and!; [done|by constructor|].
    rewrite decide_True by done. rewrite fmap_cons, <-Hfil. f_equal.
    unfold project. by rewrite !lookup_total_alt, Hrole, Hcontent.
  - exists out. rewrite decide_False by done. split_and!; [done| |done].
    apply Projection_drop; [|done]. by apply has_role_and_content_false.
Qed.

Lemma Projection_functional msgs out1 out2 :
  Projection msgs out1 → Projection msgs out2 → out1 = out2.
Proof.
  intros H1. revert out2.
  induction H1 as [|msg role content msgs out Hr Hc _ IH|msg msgs out Hno _ IH];
    intros out2 H2; inversion H2 as [|? ? ? ? out' Hr' Hc' Hrest|? ? ? Hno' Hrest];
    simplify_eq; try done.
  - f_equal. by apply IH.
  - by destruct Hno'; simplify_eq.
  - by destruct Hno; simplify_eq.
  - by apply IH.
Qed.

Lemma return_value_lookup (html_content messages : pyval) :
  let d : gmap string pyval :=
    {[ "html_content" := html_content; "messages" := messages ]} in
  d !! "html_content" = Some html_content
  ∧ d !! "messages" = Some messages
  ∧ dom d = {[ "html_content"; "messages" ]}.
Proof. cbn. split_and!; [by simplify_map_eq..|set_solver]. Qed.

Lemma dict_or_not data : (∃ d, data = PDict d) ∨ (∀ d, data ≠ PDict d).
Proof. destruct data; eauto. Qed.

Section GatewayProperties.
Context {AgentSt : Type} `{!Agent AgentSt}.

(** *** The inner block *)

Lemma agent_block_returns content w r a :
  agent_run content (agent w) = (Returns r, a) →
  ∃ out,
    Projection (agent_memory_messages a) out
    ∧ out = project <$> filter (λ msg, has_role_and_content msg = true)
                               (agent_memory_messages a)
    ∧ agent_block content w =
        (Returns (PDict {[ "html_content" := response_content r;
                           "messages" := PList out ]}),
         {| agent := a; stdout := stdout w ++ [EmptyString] |}).
Proof.
  intros Hrun.
  destruct (serializable_messages_Projection (agent_memory_messages a))
    as (out & Hout & Hproj & Hfil).
  exists out. split_and!; [done..|].
  unfold agent_block, try_except, run, print, memory_messages, lift.
  cbv [mbind M_bind]. rewrite Hrun. cbn. by rewrite Hout.
Qed.

Lemma agent_block_raises content w e a :
  agent_run content (agent w) = (Raises e, a) →
  isinstance_Exception e = true →
  agent_block content w =
    (Raises (HTTPException 500 ("An error occurred during generation: " +:+ exn_str e)),
     {| agent := a;
        stdout := stdout w ++ ["Error during agent execution: " +:+ exn_str e] |}).
Proof.
  intros Hrun He. unfold agent_block, try_except, run.
  cbv [mbind M_bind]. rewrite Hrun. cbn. by rewrite He.
Qed.

Lemma agent_block_propagates content w e a :
  agent_run content (agent w) = (Raises e, a) →
  isinstance_Exception e = false →
  agent_block content w = (Raises e, {| agent := a; stdout := stdout w |}).
Proof.
  intros Hrun He. unfold agent_block, try_except, run.
  cbv [mbind M_bind]. rewrite Hrun. cbn. by rewrite He.
Qed.

(** *** The outer block *)

Lemma request_block_parse_raises request w e :
  request_json request = Raises e →
  request_block request w = (Raises e, w).
Proof.
  intros Hjson. unfold request_block, lift. cbv [mbind M_bind]. by rewrite Hjson.
Qed.

Lemma request_block_not_dict request w data :
  request_json request = Returns data →
  (∀ d, data ≠ PDict d) →
  request_block request w =
    (Raises (Exc "AttributeError"
               ("'" +:+ type_name data +:+ "' object has no attribute 'get'")), w).
Proof.
  intros Hjson Hdata. unfold request_block, lift. cbv [mbind M_bind]. rewrite Hjson.
  destruct data; try done. by destruct (Hdata d).
Qed.

Lemma request_block_missing request w d :
  request_json request = Returns (PDict d) →
  lacks_truthy d "content" →
  request_block request w =
    (Raises (HTTPException 400 "Missing 'content' in request body"), w).
Proof.
  intros Hjson Hlacks%lacks_truthy_default.
  unfold request_block, lift. cbv [mbind M_bind]. rewrite Hjson. cbn.
  by rewrite Hlacks.
Qed.

Lemma request_block_content request w d content :
  request_json request = Returns (PDict d) →
  d !! "content" = Some content →
  truthy content = true →
  request_block request w = agent_block content w.
Proof.
  intros Hjson Hd Htruthy.
  unfold request_block, lift. cbv [mbind M_bind]. rewrite Hjson. cbn.
  by rewrite Hd; cbn; rewrite Htruthy.
Qed.

(** The outer [except] clauses, seen from the block they guard. *)
Lemma generate_notes_returns request w v w' :
  request_block request w = (Returns v, w') →
  generate_notes request w = (Returns v, w').
Proof. intros H. unfold generate_notes, try_except. by rewrite H. Qed.

Lemma generate_notes_wraps request w e w' :
  request_block request w = (Raises e, w') →
  isinstance_HTTPException e = false →
  isinstance_Exception e = true →
  generate_notes request w =
    (Raises (HTTPException 500 ("Failed to process request: " +:+ exn_str e)),
     {| agent := agent w';
        stdout := stdout w' ++ ["Error processing request: " +:+ exn_str e] |}).
Proof.
  intros H Hhttp Hexc. unfold generate_notes, try_except. rewrite H. cbn.
  by rewrite Hhttp, Hexc.
Qed.

Lemma generate_notes_reraises request w e w' :
  request_block request w = (Raises e, w') →
  isinstance_HTTPException e = true →
  generate_notes request w = (Raises e, w').
Proof.
  intros H Hhttp. unfold generate_notes, try_except. rewrite H. cbn.
  by rewrite Hhttp.
Qed.

(** Every way the handler can return: the body was a dict with a truthy
    [content], the agent's run on it returned, and the value is built from
    that answer and the agent's memory after the run. *)
Lemma generate_notes_returns_inv request w v w' :
  generate_notes request w = (Returns v, w') →
  ∃ d content r out,
    request_json request = Returns (PDict d)
    ∧ d !! "content" = Some content
    ∧ truthy content = true
    ∧ agent_run content (agent w) = (Returns r, agent w')
    ∧ stdout w' = stdout w ++ [EmptyString]
    ∧ Projection (agent_memory_messages (agent w')) out
    ∧ out = project <$> filter (λ msg, has_role_and_content msg = true)
                               (agent_memory_messages (agent w'))
    ∧ v = PDict {[ "html_content" := response_content r; "messages" := PList out ]}.
Proof.
  intros Hgen.
  assert (∀ e w1, request_block request w = (Raises e, w1) → False) as Hnoraise.
  { intros e w1 Hblock. unfold generate_notes, try_except in Hgen.
    rewrite Hblock in Hgen. cbn in Hgen.
    destruct (isinstance_HTTPException e); [done|].
    by destruct (isinstance_Exception e). }
  destruct (request_json request) as [data|e] eqn:Hjson;
    [|by destruct (Hnoraise e w); apply request_block_parse_raises].
  destruct data as [| | | | | |d];
    try (by edestruct Hnoraise; eapply request_block_not_dict; [done|]).
  destruct (d !! "content") as [content|] eqn:Hd;
    [|by edestruct Hnoraise; eapply request_block_missing; [done|];
         apply lacks_truthy_default; rewrite Hd].
  destruct (truthy content) eqn:Htruthy;
    [|by edestruct Hnoraise; eapply request_block_missing; [done|];
         apply lacks_truthy_default; rewrite Hd].
  pose proof (request_block_content _ w _ _ Hjson Hd Htruthy) as Hblock.
  destruct (agent_run content (agent w)) as [[r|e] a] eqn:Hrun.
  - destruct (agent_block_returns _ _ _ _ Hrun) as (out & Hproj & Hfil & Hret).
    rewrite Hret in Hblock. apply generate_notes_returns in Hblock.
    rewrite Hblock in Hgen. injection Hgen as <- <-. by exists d, content, r, out.
  - destruct (isinstance_Exception e) eqn:He.
    + edestruct Hnoraise. rewrite Hblock. by apply agent_block_raises.
    + edestruct Hnoraise. rewrite Hblock. by apply agent_block_propagates.
Qed.

(** With a body that did parse, whatever the handler raises is its own 400,
    one of its own 500s, or an exception outside [Exception] passing
    through from the agent. *)
Lemma generate_notes_raises_inv request w data e w' :
  request_json request = Returns data →
  generate_notes request w = (Raises e, w') →
  (∃ detail, e = HTTPException 400 detail)
  ∨ (∃ detail, e = HTTPException 500 detail)
  ∨ isinstance_Exception e = false.
Proof.
  intros Hjson Hgen.
  destruct (request_block request w) as [[v|e0] w0] eqn:Hblock.
  { apply generate_notes_returns in Hblock. congruence. }
  destruct (isinstance_Exception e0) eqn:Hexc; cycle 1.
  { unfold generate_notes, try_except in Hgen. rewrite Hblock in Hgen. cbn in Hgen.
    destruct e0; try done. cbn in Hgen. injection Hgen as <- <-. by right; right. }
  destruct (isinstance_HTTPException e0) eqn:Hhttp; cycle 1.
  { rewrite (generate_notes_wraps _ _ _ _ Hblock Hhttp Hexc) in Hgen.
    injection Hgen as <- <-. right; left; eauto. }
  rewrite (generate_notes_reraises _ _ _ _ Hblock Hhttp) in Hgen.
  injection Hgen as <- <-.
  destruct (dict_or_not data) as [[d ->]|Hnd].
  - destruct (truthy (default PNone (d !! "content"))) eqn:Htruthy.
    + destruct (d !! "content") as [content|] eqn:Hd; [|done]. cbn in Htruthy.
      rewrite (request_block_content _ _ _ _ Hjson Hd Htruthy) in Hblock.
      destruct (agent_run content (agent w)) as [[r|e1] a] eqn:Hrun.
      * destruct (agent_block_returns _ _ _ _ Hrun) as (out & _ & _ & Hret). congruence.
      * destruct (isinstance_Exception e1) eqn:He1.
        -- rewrite (agent_block_raises _ _ _ _ Hrun He1) in Hblock.
           injection Hblock as <- <-. right; left; eauto.
        -- rewrite (agent_block_propagates _ _ _ _ Hrun He1) in Hblock.
           injection Hblock as <- <-. by destruct e1.
    + apply lacks_truthy_default in Htruthy.
      rewrite (request_block_missing _ _ _ Hjson Htruthy) in Hblock.
      injection Hblock as <- <-. left; eauto.
  - rewrite (request_block_not_dict _ _ _ Hjson) in Hblock by done.
    by injection Hblock as <- <-.
Qed.

(** Where an [HTTPException] in the outer block comes from. *)
Lemma request_block_http_origin request w e w' :
  request_block request w = (Raises e, w') →
  isinstance_HTTPException e = true →
  request_json request = Raises e
  ∨ e = HTTPException 400 "Missing 'content' in request body"
  ∨ ∃ e0, isinstance_Exception e0 = true
          ∧ e = HTTPException 500 ("An error occurred during generation: " +:+ exn_str e0).
Proof.
  intros Hblock Hhttp.
  destruct (request_json request) as [data|e0] eqn:Hjson.
  - destruct (dict_or_not data) as [[d ->]|Hnd].
    + destruct (truthy (default PNone (d !! "content"))) eqn:Htruthy.
      * destruct (d !! "content") as [content|] eqn:Hd; [|done]. cbn in Htruthy.
        rewrite (request_block_content _ _ _ _ Hjson Hd Htruthy) in Hblock.
        destruct (agent_run content (agent w)) as [[r|e1] a] eqn:Hrun.
        -- destruct (agent_block_returns _ _ _ _ Hrun) as (out & _ & _ & Hret). congruence.
        -- destruct (isinstance_Exception e1) eqn:He1.
           ++ rewrite (agent_block_raises _ _ _ _ Hrun He1) in Hblock.
              injection Hblock as <- <-. right; right; eauto.
           ++ rewrite (agent_block_propagates _ _ _ _ Hrun He1) in Hblock.
              injection Hblock as <- <-. by destruct e1.
      * apply lacks_truthy_default in Htruthy.
        rewrite (request_block_missing _ _ _ Hjson Htruthy) in Hblock.
        injection Hblock as <- <-. by right; left.
    + rewrite (request_block_not_dict _ _ _ Hjson) in Hblock by done.
      by injection Hblock as <- <-.
  - rewrite (request_block_parse_raises _ _ _ Hjson) in Hblock.
    injection Hblock as <- <-. by left.
Qed.

(** The handler reads nothing of the world but the agent. *)
Lemma generate_notes_reads_agent_only request w1 w2 :
  agent w1 = agent w2 →
  (generate_notes request w1).1 = (generate_notes request w2).1
  ∧ agent (generate_notes request w1).2 = agent (generate_notes request w2).2.
Proof.
  destruct w1 as [a out1], w2 as [a2 out2]. cbn. intros <-.
  unfold generate_notes, try_except, request_block, agent_block, try_except,
    run, print, memory_messages, lift.
  cbv [mbind M_bind mret M_ret raise]. cbn.
  destruct (request_json request) as [data|e]; cbn; cycle 1.
  { destruct (isinstance_HTTPException e); [done|].
    by destruct (isinstance_Exception e). }
  destruct (dict_get data "content" PNone) as [content|e]; cbn; cycle 1.
  { destruct (isinstance_HTTPException e); [done|].
    by destruct (isinstance_Exception e). }
  destruct (truthy content); cbn; [|done].
  destruct (agent_run content a) as [[r|e] a']; cbn.
  - by destruct (serializable_messages_Projection (agent_memory_messages a'))
      as (out & -> & _).
  - by destruct e.
Qed.

(** *** What the handler answers *)

(** C1: when the JSON body is an object with no truthy ['content'] (the key
    absent, or holding [None], the empty string or any other falsy value),
    the handler raises [HTTPException(400, "Missing 'content' in request
    body")] without touching the agent or the console, and the client gets
    status 400 with exactly that detail. *)
Theorem missing_content_is_400 request w d :
  request_json request = Returns (PDict d) →
  lacks_truthy d "content" →
  generate_notes request w =
    (Raises (HTTPException 400 "Missing 'content' in request body"), w)
  ∧ post_generate request w =
      (Some {| status := 400;
               body := PDict {[ "detail" := PStr "Missing 'content' in request body" ]} |},
       w).
Proof.
  intros Hjson Hlacks.
  pose proof (request_block_missing _ w _ Hjson Hlacks) as Hblock.
  apply generate_notes_reraises in Hblock; [|done].
  split; [done|]. unfold post_generate. by rewrite Hblock.
Qed.

(** C4: when [agent.run] raises an [Exception] [e], the handler logs it and
    raises [HTTPException(500, "An error occurred during generation: " +
    str(e))]; the client gets status 500 with that detail, which ends with
    the text of [e]. *)
Theorem agent_failure_is_500 request w d content e a :
  request_json request = Returns (PDict d) →
  d !! "content" = Some content →
  truthy content = true →
  agent_run content (agent w) = (Raises e, a) →
  isinstance_Exception e = true →
  let detail := "An error occurred during generation: " +:+ exn_str e in
  let w' := {| agent := a;
               stdout := stdout w ++ ["Error during agent execution: " +:+ exn_str e] |} in
  generate_notes request w = (Raises (HTTPException 500 detail), w')
  ∧ post_generate request w =
      (Some {| status := 500; body := PDict {[ "detail" := PStr detail ]} |}, w').
Proof.
  intros Hjson Hd Htruthy Hrun He detail w'.
  pose proof (request_block_content _ w _ _ Hjson Hd Htruthy) as Hblock.
  rewrite (agent_block_raises _ _ _ _ Hrun He) in Hblock.
  apply generate_notes_reraises in Hblock; [|done].
  split; [done|]. unfold post_generate. by rewrite Hblock.
Qed.

(** C5 (as amended): an [HTTPException] that reaches the outer [try] is
    re-raised as it is, and the client gets its status and its detail.  By
    [request_block_http_origin] these are the ones raised while reading the
    request, the 400 for a missing content, and the 500 built by the inner
    [except]. *)
Theorem outer_http_exception_reraised request w w' status_code detail str :
  request_block request w = (Raises (HTTPExc status_code detail str), w') →
  generate_notes request w = (Raises (HTTPExc status_code detail str), w')
  ∧ post_generate request w =
      (Some {| status := status_code; body := PDict {[ "detail" := detail ]} |}, w').
Proof.
  intros Hblock. apply generate_notes_reraises in Hblock; [|done].
  split; [done|]. unfold post_generate. by rewrite Hblock.
Qed.

(** C9: when reading the request's JSON raises an [Exception] [e] that is
    not an [HTTPException], the handler logs it and raises
    [HTTPException(500, "Failed to process request: " + str(e))]; the client
    gets status 500 with that detail. *)
Theorem parse_failure_is_500 request w e :
  request_json request = Raises e →
  isinstance_Exception e = true →
  isinstance_HTTPException e = false →
  let detail := "Failed to process request: " +:+ exn_str e in
  let w' := {| agent := agent w;
               stdout := stdout w ++ ["Error processing request: " +:+ exn_str e] |} in
  generate_notes request w = (Raises (HTTPException 500 detail), w')
  ∧ post_generate request w =
      (Some {| status := 500; body := PDict {[ "detail" := PStr detail ]} |}, w').
Proof.
  intros Hjson Hexc Hhttp detail w'.
  pose proof (request_block_parse_raises _ w _ Hjson) as Hblock.
  apply generate_notes_wraps in Hblock; [|done..].
  split; [done|]. unfold post_generate. by rewrite Hblock.
Qed.

(** A body that is valid JSON but not an object takes the same road: the
    [.get] lookup fails and the handler answers 500. *)
Lemma non_object_body_is_500 request w data :
  request_json request = Returns data →
  (∀ d, data ≠ PDict d) →
  (generate_notes request w).1 =
    Raises (HTTPException 500
              ("Failed to process request: '" +:+ type_name data
                 +:+ "' object has no attribute 'get'")).
Proof.
  intros Hjson Hdata.
  pose proof (request_block_not_dict _ w _ Hjson Hdata) as Hblock.
  apply generate_notes_wraps in Hblock; [|done..]. by rewrite Hblock.
Qed.

(** An exception outside [Exception] raised by the agent is caught by
    neither [except]. *)
Lemma agent_base_exception_propagates request w d content e a :
  request_json request = Returns (PDict d) →
  d !! "content" = Some content →
  truthy content = true →
  agent_run content (agent w) = (Raises e, a) →
  isinstance_Exception e = false →
  generate_notes request w = (Raises e, {| agent := a; stdout := stdout w |}).
Proof.
  intros Hjson Hd Htruthy Hrun He.
  pose proof (request_block_content _ w _ _ Hjson Hd Htruthy) as Hblock.
  rewrite (agent_block_propagates _ _ _ _ Hrun He) in Hblock.
  unfold generate_notes, try_except. rewrite Hblock. by destruct e.
Qed.

(** C3: whenever the handler returns, the ["messages"] entry of the value
    is the list of [{role, content}] projections of the messages in the
    agent's memory that expose both attributes, the others left out, in the
    order of the memory. *)
Theorem returned_messages_are_projection request w v w' :
  generate_notes request w = (Returns v, w') →
  ∃ out,
    subscript v "messages" = Returns (PList out)
    ∧ Projection (agent_memory_messages (agent w')) out
    ∧ out = project <$> filter (λ msg, has_role_and_content msg = true)
                               (agent_memory_messages (agent w')).
Proof.
  intros (d & content & r & out & _ & _ & _ & _ & _ & Hproj & Hfil & ->)
    %generate_notes_returns_inv.
  exists out. split; [|done]. cbn.
  by destruct (return_value_lookup (response_content r) (PList out)) as (_ & -> & _).
Qed.

(** When the run returns a string: what the handler returns and what the
    route sends. *)
Lemma post_generate_string_answer request w d0 content r a html :
  request_json request = Returns (PDict d0) →
  d0 !! "content" = Some content →
  truthy content = true →
  agent_run content (agent w) = (Returns r, a) →
  response_content r = PStr html →
  let kept := filter (λ msg, has_role_and_content msg = true) (agent_memory_messages a) in
  let w' := {| agent := a; stdout := stdout w ++ [EmptyString] |} in
  generate_notes request w =
    (Returns (PDict {[ "html_content" := PStr html;
                       "messages" := PList (project <$> kept) ]}), w')
  ∧ ∃ d messages,
      post_generate request w = (Some {| status := 200; body := PDict d |}, w')
      ∧ dom d = {[ "html_content"; "messages" ]}
      ∧ d !! "html_content" = Some (PStr html)
      ∧ d !! "messages" = Some (PList messages)
      ∧ length messages = length kept.
Proof.
  intros Hjson Hd Htruthy Hrun Hhtml kept w'. subst kept w'.
  pose proof (request_block_content _ w _ _ Hjson Hd Htruthy) as Hblock.
  destruct (agent_block_returns _ _ _ _ Hrun) as (out & _ & -> & Hret).
  rewrite Hret in Hblock. apply generate_notes_returns in Hblock.
  rewrite Hhtml in Hblock. split; [done|].
  destruct (return_value_lookup (PStr html)
              (PList (project <$> filter (λ msg, has_role_and_content msg = true)
                                         (agent_memory_messages a))))
    as (Hh & Hm & Hdom).
  eexists _, _. split_and!; [|exact Hdom|exact Hh|exact Hm|].
  - unfold post_generate. rewrite Hblock. unfold HtmlResponse.
    cbv zeta in Hh, Hm. by rewrite Hh, Hm.
  - by rewrite length_fmap.
Qed.

(** C6: for a request whose body parsed, (1) every 200 the route sends
    comes from the handler's own return value: the body was an object with
    a truthy ['content'], the run on it returned a string, the handler
    returned the dict it builds from that string and from the projections
    of the agent's memory, and the response body is an object with exactly
    the two keys ["html_content"], that string, and ["messages"], a list
    with one entry per projected message; (2) this does happen whenever the
    run returns a string, however many messages the memory holds, none
    included. *)
Theorem success_has_two_keys request w data :
  request_json request = Returns data →
  (∀ response w',
     post_generate request w = (Some response, w') →
     status response = 200%Z →
     ∃ d0 content r html d messages,
       data = PDict d0
       ∧ d0 !! "content" = Some content ∧ truthy content = true
       ∧ agent_run content (agent w) = (Returns r, agent w')
       ∧ response_content r = PStr html
       ∧ generate_notes request w =
           (Returns (PDict {[ "html_content" := PStr html;
                              "messages" := PList
                                (project <$> filter (λ msg, has_role_and_content msg = true)
                                                    (agent_memory_messages (agent w'))) ]}),
            w')
       ∧ body response = PDict d
       ∧ dom d = {[ "html_content"; "messages" ]}
       ∧ d !! "html_content" = Some (PStr html)
       ∧ d !! "messages" = Some (PList messages)
       ∧ length messages
         = length (filter (λ msg, has_role_and_content msg = true)
                          (agent_memory_messages (agent w'))))
  ∧ (∀ d0 content r a html,
       data = PDict d0 →
       d0 !! "content" = Some content →
       truthy content = true →
       agent_run content (agent w) = (Returns r, a) →
       response_content r = PStr html →
       ∃ response,
         post_generate request w =
           (Some response, {| agent := a; stdout := stdout w ++ [EmptyString] |})
         ∧ status response = 200%Z).
Proof.
  intros Hjson. split.
  - intros response w' Hpost Hstatus.
    destruct (generate_notes request w) as [[v|e] w1] eqn:Hgen; cycle 1.
    { unfold post_generate in Hpost. rewrite Hgen in Hpost.
      destruct (generate_notes_raises_inv _ _ _ _ _ Hjson Hgen) as [[? ->]|[[? ->]|He]].
      - injection Hpost as <- <-. done.
      - injection Hpost as <- <-. done.
      - by destruct e. }
    destruct (generate_notes_returns_inv _ _ _ _ Hgen)
      as (d0 & content & r & out & Hjson' & Hd & Htruthy & Hrun & Hout & _ & _ & _).
    destruct (response_content r) as [| | | |html| |] eqn:Hhtml.
    all: try (unfold post_generate in Hpost;
      pose proof (request_block_content _ w _ _ Hjson' Hd Htruthy) as Hblock;
      destruct (agent_block_returns _ _ _ _ Hrun) as (out' & _ & _ & Hret);
      rewrite Hret in Hblock; apply generate_notes_returns in Hblock;
      rewrite Hblock in Hpost; unfold HtmlResponse in Hpost;
      destruct (return_value_lookup (response_content r) (PList out')) as (Hh & Hm & _);
      rewrite Hh, Hm, Hhtml in Hpost; injection Hpost as <- <-; done).
    destruct (post_generate_string_answer _ _ _ _ _ _ _ Hjson' Hd Htruthy Hrun Hhtml)
      as (Hret & d & messages & Hpost' & Hdom & Hh & Hm & Hlen).
    rewrite Hpost' in Hpost. injection Hpost as <- <-.
    exists d0, content, r, html, d, messages.
    split_and!; try done; [congruence|]. cbn. by rewrite <-Hgen.
  - intros d0 content r a html -> Hd Htruthy Hrun Hhtml.
    destruct (post_generate_string_answer _ w _ _ _ _ _ Hjson Hd Htruthy Hrun Hhtml)
      as (_ & d & messages & Hpost & _).
    by eexists.
Qed.

(** C2 (as amended): for an agent whose answer and resulting memory do not
    depend on its earlier state, the handler's outcome and the response sent
    for a request are the same after any two histories of earlier
    requests. *)
Theorem same_response_after_any_history request history1 history2 w :
  history_independent →
  (generate_notes request (serve history1 w)).1
    = (generate_notes request (serve history2 w)).1
  ∧ (post_generate request (serve history1 w)).1
    = (post_generate request (serve history2 w)).1.
Proof.
  intros Hind.
  assert (∀ w1 w2, (generate_notes request w1).1 = (generate_notes request w2).1) as Hsame.
  { intros w1 w2.
    destruct (request_json request) as [data|e] eqn:Hjson; cycle 1.
    { unfold generate_notes, try_except.
      rewrite !(request_block_parse_raises _ _ _ Hjson). cbn.
      destruct (isinstance_HTTPException e); [done|].
      by destruct (isinstance_Exception e). }
    destruct (dict_or_not data) as [[d ->]|Hnd]; cycle 1.
    { by rewrite !(non_object_body_is_500 _ _ _ Hjson Hnd). }
    destruct (truthy (default PNone (d !! "content"))) eqn:Htruthy; cycle 1.
    { apply lacks_truthy_default in Htruthy.
      unfold generate_notes, try_except.
      by rewrite !(request_block_missing _ _ _ Hjson Htruthy). }
    destruct (d !! "content") as [content|] eqn:Hd; [|done]. cbn in Htruthy.
    destruct (Hind content (agent w1) (agent w2)) as [Hans Hmem].
    unfold generate_notes, try_except.
    rewrite !(request_block_content _ _ _ _ Hjson Hd Htruthy).
    destruct (agent_run content (agent w1)) as [r1 a1] eqn:Hrun1.
    destruct (agent_run content (agent w2)) as [r2 a2] eqn:Hrun2.
    cbn in Hans, Hmem. subst r2. destruct r1 as [r|e].
    - destruct (agent_block_returns _ _ _ _ Hrun1) as (out1 & _ & -> & ->).
      destruct (agent_block_returns _ _ _ _ Hrun2) as (out2 & _ & -> & ->).
      cbn. by rewrite Hmem.
    - destruct (isinstance_Exception e) eqn:He.
      + by rewrite (agent_block_raises _ _ _ _ Hrun1 He),
          (agent_block_raises _ _ _ _ Hrun2 He).
      + rewrite (agent_block_propagates _ _ _ _ Hrun1 He),
          (agent_block_propagates _ _ _ _ Hrun2 He). by destruct e. }
  split; [apply Hsame|].
  unfold post_generate. specialize (Hsame (serve history1 w) (serve history2 w)).
  destruct (generate_notes request (serve history1 w)) as [r1 w1].
  destruct (generate_notes request (serve history2 w)) as [r2 w2].
  cbn in Hsame. subst r2. destruct r1 as [v|[]]; [|done..].
  by destruct (HtmlResponse v).
Qed.

End GatewayProperties.

(** ** Concrete runs *)

Lemma missing_content_is_400_witness :
  @generate_notes _ transcript_agent (content_request (PStr EmptyString)) (start []) =
    (Raises (HTTPException 400 "Missing 'content' in request body"), start [])
  ∧ @post_generate _ transcript_agent (content_request (PStr EmptyString)) (start []) =
      (Some {| status := 400;
               body := PDict {[ "detail" := PStr "Missing 'content' in request body" ]} |},
       start []).
Proof.
  apply (missing_content_is_400 (content_request (PStr EmptyString)) (start [])
           {[ "content" := PStr EmptyString ]}).
  - reflexivity.
  - intros v Hv. vm_compute in Hv. injection Hv as <-. reflexivity.
Defined.

Example missing_content_absent :
  (@generate_notes _ transcript_agent (json_request (PDict ∅)) (start [])).1 =
    Raises (HTTPException 400 "Missing 'content' in request body").
Proof. reflexivity. Qed.

Example missing_content_null :
  (@generate_notes _ transcript_agent (content_request PNone) (start [])).1 =
    Raises (HTTPException 400 "Missing 'content' in request body").
Proof. vm_compute. reflexivity. Qed.

Example body_is_a_list :
  (@generate_notes _ transcript_agent (json_request (PList [])) (start [])).1 =
    Raises (HTTPException 500
              "Failed to process request: 'list' object has no attribute 'get'").
Proof. reflexivity. Qed.

Lemma agent_failure_is_500_witness :
  @generate_notes _ (failing_agent overloaded) topic_request (start ()) =
    (Raises (HTTPException 500 "An error occurred during generation: model overloaded"),
     {| agent := (); stdout := ["Error during agent execution: model overloaded"] |})
  ∧ @post_generate _ (failing_agent overloaded) topic_request (start ()) =
      (Some {| status := 500;
               body := PDict {[ "detail" :=
                 PStr "An error occurred during generation: model overloaded" ]} |},
       {| agent := (); stdout := ["Error during agent execution: model overloaded"] |}).
Proof.
  apply (@agent_failure_is_500 _ (failing_agent overloaded) topic_request (start ())
           {[ "content" := topic ]} topic overloaded ()); reflexivity.
Defined.

Lemma outer_http_exception_reraised_witness :
  @generate_notes _ transcript_agent (unreadable_request too_large) (start []) =
    (Raises too_large, start [])
  ∧ @post_generate _ transcript_agent (unreadable_request too_large) (start []) =
      (Some {| status := 413;
               body := PDict {[ "detail" := PStr "Request Entity Too Large" ]} |},
       start []).
Proof.
  apply (@outer_http_exception_reraised _ transcript_agent
           (unreadable_request too_large) (start []) (start [])).
  reflexivity.
Defined.

(** C5, as stated, fails: an [HTTPException] raised by the agent is caught
    by the inner [except Exception] and comes out as a new 500. *)
Lemma agent_http_exception_is_wrapped :
  @agent_run _ (failing_agent not_found) topic (agent (start ())) = (Raises not_found, ())
  ∧ isinstance_HTTPException not_found = true
  ∧ (@generate_notes _ (failing_agent not_found) topic_request (start ())).1 =
      Raises (HTTPException 500 "An error occurred during generation: 404: Not Found")
  ∧ (@generate_notes _ (failing_agent not_found) topic_request (start ())).1
      ≠ Raises not_found.
Proof. split_and!; [reflexivity..|]. vm_compute. discriminate. Qed.

Lemma parse_failure_is_500_witness :
  @generate_notes _ transcript_agent (unreadable_request bad_json) (start []) =
    (Raises (HTTPException 500
       "Failed to process request: Expecting value: line 1 column 1 (char 0)"),
     {| agent := [];
        stdout := ["Error processing request: Expecting value: line 1 column 1 (char 0)"] |})
  ∧ @post_generate _ transcript_agent (unreadable_request bad_json) (start []) =
      (Some {| status := 500;
               body := PDict {[ "detail" := PStr
                 "Failed to process request: Expecting value: line 1 column 1 (char 0)" ]} |},
       {| agent := [];
          stdout := ["Error processing request: Expecting value: line 1 column 1 (char 0)"] |}).
Proof.
  apply (@parse_failure_is_500 _ transcript_agent (unreadable_request bad_json)
           (start []) bad_json); reflexivity.
Defined.

Example bare_message_is_dropped :
  returned_messages
    (@generate_notes _ transcript_agent topic_request (start [bare_message])).1 =
  Returns [ PDict {[ "role" := PStr "user"; "content" := topic ]};
            PDict {[ "role" := PStr "assistant"; "content" := PStr "<h1>graphs</h1>" ]} ].
Proof. vm_compute. reflexivity. Qed.

Lemma returned_messages_are_projection_witness :
  ∃ out,
    subscript (PDict {[ "html_content" := PStr "<h1>graphs</h1>";
                        "messages" := PList
                          [ project (message "user" topic);
                            project (message "assistant" (PStr "<h1>graphs</h1>")) ] ]})
              "messages" = Returns (PList out)
    ∧ Projection [bare_message; message "user" topic;
                  message "assistant" (PStr "<h1>graphs</h1>")] out
    ∧ out = project <$> filter (λ msg, has_role_and_content msg = true)
              [bare_message; message "user" topic;
               message "assistant" (PStr "<h1>graphs</h1>")].
Proof.
  apply (@returned_messages_are_projection _ transcript_agent topic_request
           (start [bare_message]) _
           {| agent := [bare_message; message "user" topic;
                        message "assistant" (PStr "<h1>graphs</h1>")];
              stdout := [EmptyString] |}).
  vm_compute. reflexivity.
Defined.

Lemma success_has_two_keys_witness :
  (∃ d0 content r html d messages,
     PDict {[ "content" := topic ]} = PDict d0
     ∧ d0 !! "content" = Some content ∧ truthy content = true
     ∧ @agent_run _ transcript_agent content (agent (start [])) =
         (Returns r, [message "user" topic; message "assistant" (PStr "<h1>graphs</h1>")])
     ∧ response_content r = PStr html
     ∧ @generate_notes _ transcript_agent topic_request (start []) =
         (Returns (PDict {[ "html_content" := PStr html;
                            "messages" := PList
                              (project <$> filter (λ msg, has_role_and_content msg = true)
                                 [message "user" topic;
                                  message "assistant" (PStr "<h1>graphs</h1>")]) ]}),
          {| agent := [message "user" topic;
                       message "assistant" (PStr "<h1>graphs</h1>")];
             stdout := [EmptyString] |})
     ∧ PDict {[ "html_content" := PStr "<h1>graphs</h1>";
                "messages" := PList
                  [ project (message "user" topic);
                    project (message "assistant" (PStr "<h1>graphs</h1>")) ] ]} = PDict d
     ∧ dom d = {[ "html_content"; "messages" ]}
     ∧ d !! "html_content" = Some (PStr html)
     ∧ d !! "messages" = Some (PList messages)
     ∧ length messages
       = length (filter (λ msg, has_role_and_content msg = true)
                   [message "user" topic; message "assistant" (PStr "<h1>graphs</h1>")]))
  ∧ ∃ response,
      @post_generate _ transcript_agent topic_request (start []) =
        (Some response,
         {| agent := [message "user" topic; message "assistant" (PStr "<h1>graphs</h1>")];
            stdout := [EmptyString] |})
      ∧ status response = 200%Z.
Proof.
  split.
  - apply (proj1 (@success_has_two_keys _ transcript_agent topic_request (start [])
                    (PDict {[ "content" := topic ]}) eq_refl)
             {| status := 200;
                body := PDict {[ "html_content" := PStr "<h1>graphs</h1>";
                                 "messages" := PList
                                   [ project (message "user" topic);
                                     project (message "assistant" (PStr "<h1>graphs</h1>")) ] ]} |}
             {| agent := [message "user" topic;
                          message "assistant" (PStr "<h1>graphs</h1>")];
                stdout := [EmptyString] |}).
    + vm_compute. reflexivity.
    + reflexivity.
  - apply (proj2 (@success_has_two_keys _ transcript_agent topic_request (start [])
                    (PDict {[ "content" := topic ]}) eq_refl)
             {[ "content" := topic ]} topic
             {| response_content := PStr "<h1>graphs</h1>" |}
             [message "user" topic; message "assistant" (PStr "<h1>graphs</h1>")]
             "<h1>graphs</h1>"); reflexivity.
Defined.

(** The same with nothing in the agent's memory: the 200 carries an empty
    list of messages. *)
Example success_without_messages :
  @post_generate _ memoryless_agent topic_request (start ()) =
    (Some {| status := 200;
             body := PDict {[ "html_content" := PStr "<h1>graphs</h1>";
                              "messages" := PList [] ]} |},
     {| agent := (); stdout := [EmptyString] |}).
Proof. vm_compute. reflexivity. Qed.

(** A run whose answer has no text makes the handler return, but the value
    fails [HtmlResponse] and the client gets a bare 500. *)
Example answer_without_text :
  (@generate_notes _ silent_agent topic_request (start ())).1 =
    Returns (PDict {[ "html_content" := PNone; "messages" := PList [] ]})
  ∧ (@post_generate _ silent_agent topic_request (start ())).1 =
      Some internal_server_error.
Proof. split; vm_compute; reflexivity. Qed.

Lemma same_response_after_any_history_witness :
  (@generate_notes _ fresh_agent topic_request (@serve _ fresh_agent [] (start []))).1
    = (@generate_notes _ fresh_agent topic_request
         (@serve _ fresh_agent [topic_request] (start []))).1
  ∧ (@post_generate _ fresh_agent topic_request (@serve _ fresh_agent [] (start []))).1
    = (@post_generate _ fresh_agent topic_request
         (@serve _ fresh_agent [topic_request] (start []))).1.
Proof.
  apply (@same_response_after_any_history _ fresh_agent topic_request
           [] [topic_request] (start [])).
  intros content a1 a2. split; reflexivity.
Defined.

(** C2, as stated, fails: on the agent that keeps its transcript, the same
    request is answered with two messages when it comes first and with four
    when it comes after an earlier request. *)
Lemma messages_depend_on_history :
  returned_messages
    (@generate_notes _ transcript_agent topic_request
       (@serve _ transcript_agent [] (start []))).1
    = Returns [ project (message "user" topic);
                project (message "assistant" (PStr "<h1>graphs</h1>")) ]
  ∧ returned_messages
      (@generate_notes _ transcript_agent topic_request
         (@serve _ transcript_agent [topic_request] (start []))).1
    = Returns [ project (message "user" topic);
                project (message "assistant" (PStr "<h1>graphs</h1>"));
                project (message "user" topic);
                project (message "assistant" (PStr "<h1>graphs</h1>")) ]
  ∧ (@generate_notes _ transcript_agent topic_request
       (@serve _ transcript_agent [] (start []))).1
    ≠ (@generate_notes _ transcript_agent topic_request
         (@serve _ transcript_agent [topic_request] (start []))).1.
Proof.
  split_and!; [vm_compute; reflexivity..|].
  intros Heq. apply (f_equal returned_messages) in Heq.
  vm_compute in Heq. discriminate.
Qed.

Lemma search_images_returns_links_witness :
  @search_images (fixed_api (ok_response two_items)) tools "graph" [] =
    (Returns [PStr "https://a.example/1.png"; PStr "https://b.example/2.png"],
     [EvGet base_url (search_params tools "graph"); EvJson (ok_response two_items)])
  ∧ length [PStr "https://a.example/1.png"; PStr "https://b.example/2.png"] =
    length [link_item "https://a.example/1.png"; link_item "https://b.example/2.png"].
Proof.
  apply (@search_images_returns_links (fixed_api (ok_response two_items)) tools "graph" []
           (ok_response two_items)
           {[ "items" := PList [link_item "https://a.example/1.png";
                                link_item "https://b.example/2.png"] ]}
           eq_refl eq_refl eq_refl).
  - reflexivity.
  - repeat constructor; eexists; (split; [reflexivity|]); vm_compute; reflexivity.
Defined.

Example search_images_no_items :
  @search_images (fixed_api (ok_response (PDict ∅))) tools "graph" [] =
    (Returns [],
     [EvGet base_url (search_params tools "graph"); EvJson (ok_response (PDict ∅))]).
Proof. reflexivity. Qed.

Lemma search_images_non_200_raises_witness :
  @search_images (fixed_api forbidden) tools "graph" [] =
    (Raises (Exception "Google API Error: 403 - quota exceeded"),
     [EvGet base_url (search_params tools "graph")])
  ∧ ∀ ev, ev ∈ (@search_images (fixed_api forbidden) tools "graph" []).2 →
          is_json_event ev = true → ev ∈ @nil event.
Proof.
  apply (@search_images_non_200_raises (fixed_api forbidden) tools "graph" [] forbidden).
  - reflexivity.
  - vm_compute. discriminate.
Defined.

Lemma search_images_requires_every_link_witness :
  raised (@search_images (fixed_api (ok_response broken_items)) tools "graph" []).1.
Proof.
  apply (@search_images_requires_every_link (fixed_api (ok_response broken_items))
           tools "graph" [] (ok_response broken_items)
           {[ "items" := PList [link_item "https://a.example/1.png";
                                item_without_link;
                                link_item "https://b.example/2.png"] ]}
           [link_item "https://a.example/1.png"; item_without_link;
            link_item "https://b.example/2.png"]
           eq_refl eq_refl eq_refl).
  - reflexivity.
  - right. left. vm_compute. reflexivity.
Defined.

Example search_images_item_without_link :
  (@search_images (fixed_api (ok_response broken_items)) tools "graph" []).1 =
    Raises (Exc "KeyError" "'link'").
Proof. vm_compute. reflexivity. Qed.

(** ** More on the image-search tool *)

Lemma comprehension_first_raise {A B} (elt : A → result B) (P : A → Prop) pre x post e :
  (∀ y, P y → returned (elt y)) →
  Forall P pre →
  elt x = Raises e →
  comprehension elt (λ _, true) (pre ++ x :: post) = Raises e.
Proof.
  intros HP Hpre Hx. induction Hpre as [|y pre Hy _ IH]; cbn.
  - by rewrite Hx.
  - destruct (HP _ Hy) as [b ->]. cbn. by rewrite IH.
Qed.

Section ImageSearchEdges.
Context `{!HttpClient}.

(** X1: whatever the API answers, [search_images] starts with one GET to the
    fixed endpoint, asking for 3 image results for the query with the tool's
    key and engine id, and does nothing else on the outside except at most
    one [json()] call, which happens only on a 200 response. *)
Theorem search_images_one_get self query tr :
  (∃ rest,
     (search_images self query tr).2
       = tr ++ EvGet base_url (search_params self query) :: rest
     ∧ (rest = []
        ∨ ∃ response,
            http_get base_url (search_params self query) = Returns response
            ∧ status_code response = 200%Z
            ∧ rest = [EvJson response]))
  ∧ search_params self query !! "q" = Some (PStr query)
  ∧ search_params self query !! "key" = Some (api_key self)
  ∧ search_params self query !! "cx" = Some (cse_id self)
  ∧ search_params self query !! "searchType" = Some (PStr "image")
  ∧ search_params self query !! "num" = Some (PInt 3)
  ∧ dom (search_params self query) = {[ "q"; "key"; "cx"; "searchType"; "num" ]}.
Proof.
  split; [|unfold search_params; split_and!; [by simplify_map_eq..|set_solver]].
  destruct (http_get base_url (search_params self query)) as [response|e] eqn:Hget.
  - destruct (decide (status_code response = 200%Z)) as [Hst|Hst].
    + rewrite (search_images_200 _ _ _ _ Hget Hst). cbn.
      exists [EvJson response]. split; [done|]. right. by exists response.
    + exists []. split; [|by left].
      unfold search_images, requests_get. cbv [mbind M_bind]. rewrite Hget.
      by rewrite bool_decide_eq_true_2.
  - exists []. split; [|by left].
    unfold search_images, requests_get. cbv [mbind M_bind]. by rewrite Hget.
Qed.

(** X2: an error of the GET itself (no response at all) is not caught: it
    leaves [search_images] as it is, and nothing is parsed. *)
Theorem search_images_transport_error self query tr e :
  http_get base_url (search_params self query) = Raises e →
  search_images self query tr =
    (Raises e, tr ++ [EvGet base_url (search_params self query)]).
Proof.
  intros Hget. unfold search_images, requests_get. cbv [mbind M_bind]. by rewrite Hget.
Qed.

(** X3: [search_images] returns only after a 200 response whose JSON body
    is an object, and what it returns is then exactly the ['link'] of each
    element drawn from ['items'] (none when the key is absent), in order:
    never a partial list, never anything on another status. *)
Theorem search_images_returns_inv self query tr links tr' :
  search_images self query tr = (Returns links, tr') →
  ∃ response results items,
    http_get base_url (search_params self query) = Returns response
    ∧ status_code response = 200%Z
    ∧ json response = Returns (PDict results)
    ∧ iterate (default (PList []) (results !! "items")) = Returns items
    ∧ Forall2 link_of items links
    ∧ tr' = tr ++ [EvGet base_url (search_params self query); EvJson response].
Proof.
  intros Hret.
  destruct (http_get base_url (search_params self query)) as [response|e] eqn:Hget;
    [|by rewrite (search_images_transport_error _ _ _ _ Hget) in Hret].
  destruct (decide (status_code response = 200%Z)) as [Hst|Hst]; cycle 1.
  { unfold search_images, requests_get in Hret. cbv [mbind M_bind] in Hret.
    rewrite Hget in Hret. by rewrite bool_decide_eq_true_2 in Hret. }
  rewrite (search_images_200 _ _ _ _ Hget Hst) in Hret.
  injection Hret as Hlinks <-.
  destruct (json response) as [results|e] eqn:Hjson; [|done]. cbn in Hlinks.
  destruct results as [| | | | | |results]; try done.
  unfold item_links in Hlinks. cbn in Hlinks.
  destruct (iterate (default (PList []) (results !! "items"))) as [items|e] eqn:Hitems;
    [|done]. cbn in Hlinks.
  exists response, results, items. split_and!; try done.
  apply comprehension_all_returns in Hlinks.
  eapply Forall2_impl; [done|]. intros item link. apply subscript_link_of.
Qed.

(** X4: when the body of a 200 response is not JSON, the error of
    [response.json()] leaves [search_images] unchanged. *)
Theorem search_images_bad_json self query tr response e :
  http_get base_url (search_params self query) = Returns response →
  status_code response = 200%Z →
  json response = Raises e →
  search_images self query tr =
    (Raises e, tr ++ [EvGet base_url (search_params self query); EvJson response]).
Proof.
  intros Hget Hst Hjson. by rewrite (search_images_200 _ _ _ _ Hget Hst), Hjson.
Qed.

(** X5: when the body of a 200 response is JSON but not an object (a list,
    a string, a number, [null]), the [.get] lookup fails with an
    [AttributeError] naming the body's type. *)
Theorem search_images_body_not_object self query tr response results :
  http_get base_url (search_params self query) = Returns response →
  status_code response = 200%Z →
  json response = Returns results →
  (∀ d, results ≠ PDict d) →
  search_images self query tr =
    (Raises (Exc "AttributeError"
               ("'" +:+ type_name results +:+ "' object has no attribute 'get'")),
     tr ++ [EvGet base_url (search_params self query); EvJson response]).
Proof.
  intros Hget Hst Hjson Hno. rewrite (search_images_200 _ _ _ _ Hget Hst), Hjson.
  destruct results; try done. by destruct (Hno d).
Qed.

(** X6: the default [[]] only stands in for a missing ['items'] key.  When
    the key is there with a value that cannot be iterated ([null], a number,
    a boolean), [search_images] raises a [TypeError] instead of returning
    the empty list. *)
Theorem search_images_items_not_iterable self query tr response results items :
  http_get base_url (search_params self query) = Returns response →
  status_code response = 200%Z →
  json response = Returns (PDict results) →
  results !! "items" = Some items →
  iterable items = false →
  search_images self query tr =
    (Raises (Exc "TypeError" ("'" +:+ type_name items +:+ "' object is not iterable")),
     tr ++ [EvGet base_url (search_params self query); EvJson response]).
Proof.
  intros Hget Hst Hjson Hitems Hiter.
  rewrite (search_images_200 _ _ _ _ Hget Hst), Hjson. cbn.
  unfold item_links. cbn. rewrite Hitems. by destruct items.
Qed.

(** X7: the first item without a ['link'] decides the outcome: when the
    items before it all have one and it is a dict lacking the key, the call
    raises [KeyError('link')], whatever the items after it are. *)
Theorem search_images_first_missing_link self query tr response results pre d post :
  http_get base_url (search_params self query) = Returns response →
  status_code response = 200%Z →
  json response = Returns (PDict results) →
  results !! "items" = Some (PList (pre ++ PDict d :: post)) →
  Forall (λ item, has_link item = true) pre →
  d !! "link" = None →
  search_images self query tr =
    (Raises (Exc "KeyError" "'link'"),
     tr ++ [EvGet base_url (search_params self query); EvJson response]).
Proof.
  intros Hget Hst Hjson Hitems Hpre Hd.
  rewrite (search_images_200 _ _ _ _ Hget Hst), Hjson. cbn.
  unfold item_links. cbn. rewrite Hitems. cbn.
  rewrite (comprehension_first_raise _ (λ item, has_link item = true) pre (PDict d) post
             (Exc "KeyError" "'link'")); [done| |done|].
  - intros y. apply subscript_has_link.
  - cbn. by rewrite Hd.
Qed.

End ImageSearchEdges.

(** ** More on the gateway *)

Section GatewayEdges.
Context {AgentSt : Type} `{!Agent AgentSt}.

Lemma generate_notes_propagates request w e w' :
  request_block request w = (Raises e, w') →
  isinstance_Exception e = false →
  generate_notes request w = (Raises e, w').
Proof.
  intros Hblock He. unfold generate_notes, try_except. rewrite Hblock. by destruct e.
Qed.

(** Every road through the handler, with its outcome and the world it
    leaves. *)
Lemma generate_notes_cases request w :
  (∃ e, request_json request = Raises e
        ∧ isinstance_HTTPException e = true
        ∧ generate_notes request w = (Raises e, w))
  ∨ (∃ e, request_json request = Raises e
          ∧ isinstance_HTTPException e = false ∧ isinstance_Exception e = true
          ∧ generate_notes request w =
              (Raises (HTTPException 500 ("Failed to process request: " +:+ exn_str e)),
               {| agent := agent w;
                  stdout := stdout w ++ ["Error processing request: " +:+ exn_str e] |}))
  ∨ (∃ e, request_json request = Raises e
          ∧ isinstance_Exception e = false
          ∧ generate_notes request w = (Raises e, w))
  ∨ (∃ data, request_json request = Returns data
             ∧ (∀ d, data ≠ PDict d)
             ∧ generate_notes request w =
                 (Raises (HTTPException 500
                            ("Failed to process request: '" +:+ type_name data
                               +:+ "' object has no attribute 'get'")),
                  {| agent := agent w;
                     stdout := stdout w ++
                       ["Error processing request: '" +:+ type_name data
                          +:+ "' object has no attribute 'get'"] |}))
  ∨ (∃ d, request_json request = Returns (PDict d)
          ∧ lacks_truthy d "content"
          ∧ generate_notes request w =
              (Raises (HTTPException 400 "Missing 'content' in request body"), w))
  ∨ (∃ d content r a,
        request_json request = Returns (PDict d)
        ∧ d !! "content" = Some content ∧ truthy content = true
        ∧ agent_run content (agent w) = (Returns r, a)
        ∧ generate_notes request w =
            (Returns (PDict {[ "html_content" := response_content r;
                               "messages" := PList
                                 (project <$> filter (λ msg, has_role_and_content msg = true)
                                                     (agent_memory_messages a)) ]}),
             {| agent := a; stdout := stdout w ++ [EmptyString] |}))
  ∨ (∃ d content e a,
        request_json request = Returns (PDict d)
        ∧ d !! "content" = Some content ∧ truthy content = true
        ∧ agent_run content (agent w) = (Raises e, a)
        ∧ isinstance_Exception e = true
        ∧ generate_notes request w =
            (Raises (HTTPException 500
                       ("An error occurred during generation: " +:+ exn_str e)),
             {| agent := a;
                stdout := stdout w ++ ["Error during agent execution: " +:+ exn_str e] |}))
  ∨ (∃ d content e a,
        request_json request = Returns (PDict d)
        ∧ d !! "content" = Some content ∧ truthy content = true
        ∧ agent_run content (agent w) = (Raises e, a)
        ∧ isinstance_Exception e = false
        ∧ generate_notes request w = (Raises e, {| agent := a; stdout := stdout w |})).
Proof.
  destruct (request_json request) as [data|e] eqn:Hjson.
  - destruct (dict_or_not data) as [[d ->]|Hnd].
    + destruct (truthy (default PNone (d !! "content"))) eqn:Htruthy.
      * destruct (d !! "content") as [content|] eqn:Hd; [|done]. cbn in Htruthy.
        pose proof (request_block_content _ w _ _ Hjson Hd Htruthy) as Hblock.
        destruct (agent_run content (agent w)) as [[r|e] a] eqn:Hrun.
        -- destruct (agent_block_returns _ _ _ _ Hrun) as (out & _ & -> & Hret).
           rewrite Hret in Hblock. apply generate_notes_returns in Hblock.
           do 5 right. left. by exists d, content, r, a.
        -- destruct (isinstance_Exception e) eqn:He.
           ++ rewrite (agent_block_raises _ _ _ _ Hrun He) in Hblock.
              apply generate_notes_reraises in Hblock; [|done].
              do 6 right. left. by exists d, content, e, a.
           ++ rewrite (agent_block_propagates _ _ _ _ Hrun He) in Hblock.
              apply generate_notes_propagates in Hblock; [|done].
              do 7 right. by exists d, content, e, a.
      * apply lacks_truthy_default in Htruthy.
        pose proof (request_block_missing _ w _ Hjson Htruthy) as Hblock.
        apply generate_notes_reraises in Hblock; [|done].
        do 4 right. left. by exists d.
    + pose proof (request_block_not_dict _ w _ Hjson Hnd) as Hblock.
      apply generate_notes_wraps in Hblock; [|done..].
      do 3 right. left. by exists data.
  - pose proof (request_block_parse_raises _ w _ Hjson) as Hblock.
    destruct (isinstance_Exception e) eqn:Hexc.
    + destruct (isinstance_HTTPException e) eqn:Hhttp.
      * apply generate_notes_reraises in Hblock; [|done]. left. by exists e.
      * apply generate_notes_wraps in Hblock; [|done..]. right. left. by exists e.
    + apply generate_notes_propagates in Hblock; [|done]. do 2 right. left. by exists e.
Qed.

(** X8: no ordinary exception leaves the handler: whatever it raises that is
    an [Exception] is an [HTTPException]. *)
Theorem handler_raises_only_http request w e w' :
  generate_notes request w = (Raises e, w') →
  isinstance_Exception e = true →
  isinstance_HTTPException e = true.
Proof.
  intros Hgen Hexc.
  destruct (generate_notes_cases request w)
    as [(e0 & _ & Hhttp & H)|[(e0 & _ & _ & _ & H)|[(e0 & _ & Hbase & H)|[(data & _ & _ & H)
       |[(d & _ & _ & H)|[(d & c & r & a & _ & _ & _ & _ & H)
       |[(d & c & e0 & a & _ & _ & _ & _ & _ & H)|(d & c & e0 & a & _ & _ & _ & _ & Hbase & H)]]]]]]];
    rewrite H in Hgen; simplify_eq; try done; congruence.
Qed.

(** X9: the agent is run once or not at all: either the body is an object
    with a truthy ['content'] and the agent is left as one run on exactly
    that value leaves it (whether the run returned or raised), or the agent
    is untouched and the handler raises. *)
Theorem agent_runs_once_or_never request w :
  (∃ d content,
      request_json request = Returns (PDict d)
      ∧ d !! "content" = Some content ∧ truthy content = true
      ∧ agent (generate_notes request w).2 = (agent_run content (agent w)).2)
  ∨ (agent (generate_notes request w).2 = agent w
     ∧ raised (generate_notes request w).1).
Proof.
  destruct (generate_notes_cases request w)
    as [(e0 & _ & _ & H)|[(e0 & _ & _ & _ & H)|[(e0 & _ & _ & H)|[(data & _ & _ & H)
       |[(d & _ & _ & H)|[(d & c & r & a & Hj & Hd & Ht & Hrun & H)
       |[(d & c & e0 & a & Hj & Hd & Ht & Hrun & _ & H)
        |(d & c & e0 & a & Hj & Hd & Ht & Hrun & _ & H)]]]]]]];
    rewrite H; cbn;
    try (right; split; [done|by eexists]);
    left; exists d, c; by rewrite Hrun.
Qed.

(** X10: the handler only appends to the console, at most one line per
    request: an empty line when it returns, nothing when it answers 400. *)
Theorem handler_prints_at_most_one_line request w :
  ∃ lines,
    stdout (generate_notes request w).2 = stdout w ++ lines
    ∧ length lines ≤ 1
    ∧ (returned (generate_notes request w).1 → lines = [EmptyString])
    ∧ ((generate_notes request w).1 =
         Raises (HTTPException 400 "Missing 'content' in request body") →
       lines = []).
Proof.
  destruct (generate_notes_cases request w)
    as [(e0 & Hj & _ & H)|[(e0 & _ & _ & _ & H)|[(e0 & _ & Hb & H)|[(data & _ & _ & H)
       |[(d & _ & _ & H)|[(d & c & r & a & _ & _ & _ & _ & H)
       |[(d & c & e0 & a & _ & _ & _ & _ & _ & H)
        |(d & c & e0 & a & _ & _ & _ & _ & Hb & H)]]]]]]];
    rewrite H; cbn.
  - exists []. rewrite app_nil_r. split_and!; [done|cbn; lia|by intros [? ?]|done].
  - eexists [_]. split_and!; [done|done|by intros [? ?]|by intros [=]].
  - exists []. rewrite app_nil_r. split_and!; [done|cbn; lia|by intros [? ?]|done].
  - eexists [_]. split_and!; [done|done|by intros [? ?]|by intros [=]].
  - exists []. rewrite app_nil_r. split_and!; [done|cbn; lia|by intros [? ?]|done].
  - exists [EmptyString]. split_and!; [done|done|done|by intros [=]].
  - eexists [_]. split_and!; [done|done|by intros [? ?]|by intros [=]].
  - exists []. rewrite app_nil_r. split_and!; [done|cbn; lia|by intros [? ?]|done].
Qed.

(** X11: a body that is valid JSON but not an object (a list, a string, a
    number, [null]) is not answered 400: the [.get] lookup fails, the outer
    [except Exception] logs it, and the client gets 500 with the attribute
    error's text in the detail.  The agent is not run. *)
Theorem non_object_body_answer request w data :
  request_json request = Returns data →
  (∀ d, data ≠ PDict d) →
  let error := "'" +:+ type_name data +:+ "' object has no attribute 'get'" in
  let w' := {| agent := agent w;
               stdout := stdout w ++ ["Error processing request: " +:+ error] |} in
  generate_notes request w =
    (Raises (HTTPException 500 ("Failed to process request: " +:+ error)), w')
  ∧ post_generate request w =
      (Some {| status := 500;
               body := PDict {[ "detail" :=
                 PStr ("Failed to process request: " +:+ error) ]} |}, w').
Proof.
  intros Hjson Hdata error w'.
  pose proof (request_block_not_dict _ w _ Hjson Hdata) as Hblock.
  apply generate_notes_wraps in Hblock; [|done..].
  split; [done|]. unfold post_generate. by rewrite Hblock.
Qed.

(** X12: an exception outside [Exception] that leaves the handler came,
    unchanged, from reading the request or from the agent's run, and the
    handler printed nothing on its way. *)
Theorem handler_base_exception_origin request w e w' :
  generate_notes request w = (Raises e, w') →
  isinstance_Exception e = false →
  stdout w' = stdout w
  ∧ (request_json request = Raises e
     ∨ ∃ d content a,
         request_json request = Returns (PDict d)
         ∧ d !! "content" = Some content ∧ truthy content = true
         ∧ agent_run content (agent w) = (Raises e, a)
         ∧ agent w' = a).
Proof.
  intros Hgen Hbase.
  destruct (generate_notes_cases request w)
    as [(e0 & Hj & Hhttp & H)|[(e0 & _ & _ & _ & H)|[(e0 & Hj & _ & H)|[(data & _ & _ & H)
       |[(d & _ & _ & H)|[(d & c & r & a & _ & _ & _ & _ & H)
       |[(d & c & e0 & a & _ & _ & _ & _ & _ & H)
        |(d & c & e0 & a & Hj & Hd & Ht & Hrun & _ & H)]]]]]]];
    rewrite H in Hgen; simplify_eq; try done.
  - by destruct e.
  - auto.
  - split; [done|]. right. by exists d, c, a.
Qed.

(** X13: when the agent's run returns a string, the client gets 200 and a
    body with exactly the two keys: ["html_content"] is that string,
    untouched, and ["messages"] is a list with one entry for each message
    of the agent's memory after the run that has a role and a content. *)
Theorem string_answer_is_200 request w d content r a html :
  request_json request = Returns (PDict d) →
  d !! "content" = Some content →
  truthy content = true →
  agent_run content (agent w) = (Returns r, a) →
  response_content r = PStr html →
  ∃ fields messages,
    post_generate request w =
      (Some {| status := 200; body := PDict fields |},
       {| agent := a; stdout := stdout w ++ [EmptyString] |})
    ∧ dom fields = {[ "html_content"; "messages" ]}
    ∧ fields !! "html_content" = Some (PStr html)
    ∧ fields !! "messages" = Some (PList messages)
    ∧ length messages
      = length (filter (λ msg, has_role_and_content msg = true)
                       (agent_memory_messages a)).
Proof.
  intros Hjson Hd Htruthy Hrun Hhtml.
  by destruct (post_generate_string_answer _ w _ _ _ _ _ Hjson Hd Htruthy Hrun Hhtml)
    as (_ & Hsent).
Qed.

(** X14: when the agent's run returns something that is not a string (no
    text at all, a structured value), the handler still returns, but the
    value fails [HtmlResponse] and the client gets a bare 500; the run has
    happened and the agent keeps what it left. *)
Theorem non_string_answer_is_bare_500 request w d content r a :
  request_json request = Returns (PDict d) →
  d !! "content" = Some content →
  truthy content = true →
  agent_run content (agent w) = (Returns r, a) →
  (∀ html, response_content r ≠ PStr html) →
  returned (generate_notes request w).1
  ∧ post_generate request w =
      (Some internal_server_error,
       {| agent := a; stdout := stdout w ++ [EmptyString] |}).
Proof.
  intros Hjson Hd Htruthy Hrun Hhtml.
  pose proof (request_block_content _ w _ _ Hjson Hd Htruthy) as Hblock.
  destruct (agent_block_returns _ _ _ _ Hrun) as (out & _ & _ & Hret).
  rewrite Hret in Hblock. apply generate_notes_returns in Hblock.
  unfold post_generate. rewrite Hblock. split; [by eexists|]. unfold HtmlResponse.
  destruct (return_value_lookup (response_content r) (PList out)) as (-> & -> & _).
  destruct (response_content r) as [| | | |html| |]; try done. by destruct (Hhtml html).
Qed.

(** X15: for a request whose body parsed, the only statuses the route ever
    sends are 200, 400 and 500. *)
Theorem route_statuses request w data response w' :
  request_json request = Returns data →
  post_generate request w = (Some response, w') →
  status response = 200%Z ∨ status response = 400%Z ∨ status response = 500%Z.
Proof.
  intros Hjson Hpost. unfold post_generate in Hpost.
  destruct (generate_notes request w) as [[v|e] w1] eqn:Hgen.
  - destruct (HtmlResponse v); injection Hpost as <- <-; auto.
  - destruct (generate_notes_raises_inv _ _ _ _ _ Hjson Hgen) as [[? ->]|[[? ->]|He]].
    + injection Hpost as <- <-. auto.
    + injection Hpost as <- <-. auto.
    + by destruct e.
Qed.

(** X16: the handler returns exactly when the body is an object with a
    truthy ['content'] and the agent's run on that value returns; the value
    then carries the run's content as ["html_content"], one empty line has
    been printed, and the agent is as the run left it. *)
Theorem handler_returns_iff request w v w' :
  generate_notes request w = (Returns v, w')
  ↔ ∃ d content r a,
      request_json request = Returns (PDict d)
      ∧ d !! "content" = Some content ∧ truthy content = true
      ∧ agent_run content (agent w) = (Returns r, a)
      ∧ w' = {| agent := a; stdout := stdout w ++ [EmptyString] |}
      ∧ v = PDict {[ "html_content" := response_content r;
                     "messages" := PList
                       (project <$> filter (λ msg, has_role_and_content msg = true)
                                           (agent_memory_messages a)) ]}.
Proof.
  split.
  - intros Hgen.
    destruct (generate_notes_cases request w)
      as [(e0 & _ & _ & H)|[(e0 & _ & _ & _ & H)|[(e0 & _ & _ & H)|[(data & _ & _ & H)
         |[(d & _ & _ & H)|[(d & c & r & a & Hj & Hd & Ht & Hrun & H)
         |[(d & c & e0 & a & _ & _ & _ & _ & _ & H)
          |(d & c & e0 & a & _ & _ & _ & _ & _ & H)]]]]]]];
      rewrite H in Hgen; try done.
    injection Hgen as <- <-. by exists d, c, r, a.
  - intros (d & content & r & a & Hjson & Hd & Htruthy & Hrun & -> & ->).
    pose proof (request_block_content _ w _ _ Hjson Hd Htruthy) as Hblock.
    destruct (agent_block_returns _ _ _ _ Hrun) as (out & _ & -> & Hret).
    rewrite Hret in Hblock. by apply generate_notes_returns.
Qed.

End GatewayEdges.

(** ** More concrete runs *)

Lemma search_images_transport_error_witness :
  @search_images (failing_api connection_error) tools "graph" [] =
    (Raises connection_error, [EvGet base_url (search_params tools "graph")]).
Proof.
  apply (@search_images_transport_error (failing_api connection_error) tools "graph" []
           connection_error).
  reflexivity.
Defined.

Lemma search_images_returns_inv_witness :
  ∃ response results items,
    @http_get (fixed_api (ok_response two_items)) base_url (search_params tools "graph")
      = Returns response
    ∧ status_code response = 200%Z
    ∧ json response = Returns (PDict results)
    ∧ iterate (default (PList []) (results !! "items")) = Returns items
    ∧ Forall2 link_of items
        [PStr "https://a.example/1.png"; PStr "https://b.example/2.png"]
    ∧ [EvGet base_url (search_params tools "graph"); EvJson (ok_response two_items)]
      = [] ++ [EvGet base_url (search_params tools "graph"); EvJson response].
Proof.
  apply (@search_images_returns_inv (fixed_api (ok_response two_items)) tools "graph" []).
  vm_compute. reflexivity.
Defined.

Lemma search_images_bad_json_witness :
  @search_images (fixed_api unparsable) tools "graph" [] =
    (Raises bad_json, [EvGet base_url (search_params tools "graph"); EvJson unparsable]).
Proof.
  apply (@search_images_bad_json (fixed_api unparsable) tools "graph" [] unparsable bad_json);
    reflexivity.
Defined.

Lemma search_images_body_not_object_witness :
  @search_images (fixed_api (ok_response (PList []))) tools "graph" [] =
    (Raises (Exc "AttributeError" "'list' object has no attribute 'get'"),
     [EvGet base_url (search_params tools "graph"); EvJson (ok_response (PList []))]).
Proof.
  apply (@search_images_body_not_object (fixed_api (ok_response (PList []))) tools "graph" []
           (ok_response (PList [])) (PList [])); [reflexivity..|].
  intros d. discriminate.
Defined.

Lemma search_images_items_not_iterable_witness :
  @search_images (fixed_api (ok_response null_items)) tools "graph" [] =
    (Raises (Exc "TypeError" "'NoneType' object is not iterable"),
     [EvGet base_url (search_params tools "graph"); EvJson (ok_response null_items)]).
Proof.
  apply (@search_images_items_not_iterable (fixed_api (ok_response null_items)) tools
           "graph" [] (ok_response null_items) {[ "items" := PNone ]} PNone);
    reflexivity.
Defined.

Lemma search_images_first_missing_link_witness :
  @search_images (fixed_api (ok_response broken_items)) tools "graph" [] =
    (Raises (Exc "KeyError" "'link'"),
     [EvGet base_url (search_params tools "graph"); EvJson (ok_response broken_items)]).
Proof.
  apply (@search_images_first_missing_link (fixed_api (ok_response broken_items)) tools
           "graph" [] (ok_response broken_items)
           {[ "items" := PList [link_item "https://a.example/1.png";
                                item_without_link;
                                link_item "https://b.example/2.png"] ]}
           [link_item "https://a.example/1.png"]
           {[ "title" := PStr "image" ]}
           [link_item "https://b.example/2.png"]).
  - reflexivity.
  - reflexivity.
  - reflexivity.
  - reflexivity.
  - repeat constructor.
  - reflexivity.
Defined.

Lemma handler_raises_only_http_witness :
  isinstance_HTTPException
    (HTTPException 500 "An error occurred during generation: model overloaded") = true.
Proof.
  apply (@handler_raises_only_http _ (failing_agent overloaded) topic_request (start ())
           (HTTPException 500 "An error occurred during generation: model overloaded")
           {| agent := (); stdout := ["Error during agent execution: model overloaded"] |});
    reflexivity.
Defined.

Lemma non_object_body_answer_witness :
  @generate_notes _ transcript_agent (json_request (PList [])) (start []) =
    (Raises (HTTPException 500
       "Failed to process request: 'list' object has no attribute 'get'"),
     {| agent := [];
        stdout := ["Error processing request: 'list' object has no attribute 'get'"] |})
  ∧ @post_generate _ transcript_agent (json_request (PList [])) (start []) =
      (Some {| status := 500;
               body := PDict {[ "detail" := PStr
                 "Failed to process request: 'list' object has no attribute 'get'" ]} |},
       {| agent := [];
          stdout := ["Error processing request: 'list' object has no attribute 'get'"] |}).
Proof.
  apply (@non_object_body_answer _ transcript_agent (json_request (PList [])) (start [])
           (PList [])); [reflexivity|].
  intros d. discriminate.
Defined.

Lemma handler_base_exception_origin_witness :
  stdout (start ()) = stdout (start ())
  ∧ (request_json topic_request = Raises keyboard_interrupt
     ∨ ∃ d content a,
         request_json topic_request = Returns (PDict d)
         ∧ d !! "content" = Some content ∧ truthy content = true
         ∧ @agent_run _ (failing_agent keyboard_interrupt) content (agent (start ()))
           = (Raises keyboard_interrupt, a)
         ∧ agent (start ()) = a).
Proof.
  apply (@handler_base_exception_origin _ (failing_agent keyboard_interrupt)
           topic_request (start ()) keyboard_interrupt (start ())); reflexivity.
Defined.

Lemma string_answer_is_200_witness :
  ∃ fields messages,
    @post_generate _ transcript_agent topic_request (start [bare_message]) =
      (Some {| status := 200; body := PDict fields |},
       {| agent := [bare_message; message "user" topic;
                    message "assistant" (PStr "<h1>graphs</h1>")];
          stdout := [EmptyString] |})
    ∧ dom fields = {[ "html_content"; "messages" ]}
    ∧ fields !! "html_content" = Some (PStr "<h1>graphs</h1>")
    ∧ fields !! "messages" = Some (PList messages)
    ∧ length messages
      = length (filter (λ msg, has_role_and_content msg = true)
                  [bare_message; message "user" topic;
                   message "assistant" (PStr "<h1>graphs</h1>")]).
Proof.
  apply (@string_answer_is_200 _ transcript_agent topic_request (start [bare_message])
           {[ "content" := topic ]} topic
           {| response_content := PStr "<h1>graphs</h1>" |}
           [bare_message; message "user" topic;
            message "assistant" (PStr "<h1>graphs</h1>")]
           "<h1>graphs</h1>"); reflexivity.
Defined.

Lemma non_string_answer_is_bare_500_witness :
  returned (@generate_notes _ silent_agent topic_request (start ())).1
  ∧ @post_generate _ silent_agent topic_request (start ()) =
      (Some internal_server_error, {| agent := (); stdout := [EmptyString] |}).
Proof.
  apply (@non_string_answer_is_bare_500 _ silent_agent topic_request (start ())
           {[ "content" := topic ]} topic {| response_content := PNone |} ());
    [reflexivity..|].
  intros html. discriminate.
Defined.

Lemma route_statuses_witness :
  (400 = 200 ∨ 400 = 400 ∨ 400 = 500)%Z.
Proof.
  apply (@route_statuses _ transcript_agent (content_request PNone) (start [])
           (PDict {[ "content" := PNone ]})
           {| status := 400;
              body := PDict {[ "detail" := PStr "Missing 'content' in request body" ]} |}
           (start [])).
  - reflexivity.
  - vm_compute. reflexivity.
Defined.

(** ** The transcript over a sequence of requests *)

Section Transcript.
Context {AgentSt : Type} `{!Agent AgentSt}.

Lemma generate_notes_memory_grows request w :
  memory_grows →
  agent_memory_messages (agent w)
    `prefix_of` agent_memory_messages (agent (generate_notes request w).2).
Proof.
  intros Hgrows.
  destruct (generate_notes_cases request w)
    as [(e0 & _ & _ & H)|[(e0 & _ & _ & _ & H)|[(e0 & _ & _ & H)|[(data & _ & _ & H)
       |[(d & _ & _ & H)|[(d & c & r & a & _ & _ & _ & Hrun & H)
       |[(d & c & e0 & a & _ & _ & _ & Hrun & _ & H)
        |(d & c & e0 & a & _ & _ & _ & Hrun & _ & H)]]]]]]];
    rewrite H; cbn; try done;
    specialize (Hgrows c (agent w)); by rewrite Hrun in Hgrows.
Qed.

(** X17: the handler returns the agent's whole memory, not the messages of
    the current run.  With an agent whose runs keep what the memory held,
    the projections of the messages that were there before the request come
    back, in front, in the response to it. *)
Theorem earlier_messages_are_returned request w v w' :
  memory_grows →
  generate_notes request w = (Returns v, w') →
  ∃ out,
    subscript v "messages" = Returns (PList out)
    ∧ (project <$> filter (λ msg, has_role_and_content msg = true)
                          (agent_memory_messages (agent w))) `prefix_of` out.
Proof.
  intros Hgrows Hgen.
  pose proof (generate_notes_memory_grows request w Hgrows) as [new Hnew].
  rewrite Hgen in Hnew. cbn in Hnew.
  apply generate_notes_returns_inv in Hgen
    as (d & content & r & out & _ & _ & _ & _ & _ & _ & -> & ->).
  eexists. split.
  - cbn. by destruct (return_value_lookup (response_content r)
                        (PList (project <$> filter (λ msg, has_role_and_content msg = true)
                                                   (agent_memory_messages (agent w')))))
      as (_ & -> & _).
  - rewrite Hnew, filter_app, fmap_app. by eexists.
Qed.

(** X18: over any sequence of requests the transcript only grows (for an
    agent whose runs keep what the memory held): requests that are rejected
    leave it as it is, the others add to it, none resets it. *)
Theorem transcript_only_grows history w :
  memory_grows →
  agent_memory_messages (agent w)
    `prefix_of` agent_memory_messages (agent (serve history w)).
Proof.
  intros Hgrows. revert w. induction history as [|request history IH]; intros w; cbn.
  - done.
  - etrans; [by apply (generate_notes_memory_grows request)|]. apply IH.
Qed.

End Transcript.

Lemma earlier_messages_are_returned_witness :
  ∃ out,
    subscript (PDict {[ "html_content" := PStr "<h1>graphs</h1>";
                        "messages" := PList
                          [ project (message "user" (PStr "trees"));
                            project (message "assistant" (PStr "<h1>trees</h1>"));
                            project (message "user" topic);
                            project (message "assistant" (PStr "<h1>graphs</h1>")) ] ]})
              "messages" = Returns (PList out)
    ∧ (project <$> filter (λ msg, has_role_and_content msg = true)
         [message "user" (PStr "trees"); message "assistant" (PStr "<h1>trees</h1>")])
      `prefix_of` out.
Proof.
  apply (@earlier_messages_are_returned _ transcript_agent topic_request
           (start [message "user" (PStr "trees");
                   message "assistant" (PStr "<h1>trees</h1>")])
           _
           {| agent := [message "user" (PStr "trees");
                        message "assistant" (PStr "<h1>trees</h1>");
                        message "user" topic;
                        message "assistant" (PStr "<h1>graphs</h1>")];
              stdout := [EmptyString] |}).
  - intros content a. eexists. reflexivity.
  - vm_compute. reflexivity.
Defined.

Lemma transcript_only_grows_witness :
  @agent_memory_messages _ transcript_agent (agent (start []))
    `prefix_of`
  @agent_memory_messages _ transcript_agent
    (agent (@serve _ transcript_agent [topic_request; content_request PNone] (start []))).
Proof.
  apply (@transcript_only_grows _ transcript_agent
           [topic_request; content_request PNone] (start [])).
  intros content a. eexists. reflexivity.
Defined.
